(** * Version hooks: a shallow embedding of the pre-commit hook, the
      post-commit hook and [build/deploy.js]

    The scripts are Node programs over the file system and the [git]
    command line.  The embedding keeps their control flow: a [try]/[catch]
    is a match on an [option], a mutated file is a field of the state that
    is passed along, an external command is a field of the state (what it
    prints, or that it fails).

    Text.  A JavaScript string whose code units lie below 256 is a
    [string]; versions, tag names, keys of the environment file and log
    lines are such strings.  White space and line terminators are the
    members of the ECMAScript classes in that range. *)

From Stdlib Require Import Bool List PeanoNat NArith Lia Ascii String.
From Stdlib Require Import Decimal DecimalString DecimalN FinFun.
Import ListNotations.
Open Scope string_scope.
Open Scope N_scope.

(** ** The JavaScript built-ins the scripts call *)

Module Js.

(** [\n] and [\r]: the line terminators below 256; the regular
    expression atom [.] matches every other code unit. *)
Definition isLineTerminator (c : ascii) : bool :=
  let n := N_of_ascii c in (n =? 10) || (n =? 13).

(** The code units that [String.prototype.trim] strips: TAB, LF, VT, FF,
    CR, SP and NBSP. *)
Definition isWhiteSpace (c : ascii) : bool :=
  let n := N_of_ascii c in
  ((9 <=? n) && (n <=? 13)) || (n =? 32) || (n =? 160).

(** [\d] *)
Definition isDigit (c : ascii) : bool :=
  let n := N_of_ascii c in (48 <=? n) && (n <=? 57).

Definition isEmpty (s : string) : bool :=
  match s with EmptyString => true | String _ _ => false end.

Fixpoint trimStart (s : string) : string :=
  match s with
  | EmptyString => EmptyString
  | String c s' => if isWhiteSpace c then trimStart s' else s
  end.

Fixpoint trimEnd (s : string) : string :=
  match s with
  | EmptyString => EmptyString
  | String c s' =>
      let t := trimEnd s' in
      if isWhiteSpace c && isEmpty t then EmptyString else String c t
  end.

Definition trim (s : string) : string := trimEnd (trimStart s).

(** [s.split(sep)] for a separator of one code unit. *)
Fixpoint split (sep : ascii) (s : string) : list string :=
  match s with
  | EmptyString => [EmptyString]
  | String c s' =>
      if Ascii.eqb c sep then EmptyString :: split sep s'
      else match split sep s' with
           | h :: t => String c h :: t
           | [] => [String c EmptyString]
           end
  end.

Fixpoint includes (hay needle : string) : bool :=
  prefix needle hay
  || match hay with
     | EmptyString => false
     | String _ hay' => includes hay' needle
     end.

Fixpoint endsWith (s suffix : string) : bool :=
  String.eqb s suffix
  || match s with
     | EmptyString => false
     | String _ s' => endsWith s' suffix
     end.

(** [s.slice(n)] *)
Fixpoint slice (n : nat) (s : string) : string :=
  match n, s with
  | O, _ => s
  | S _, EmptyString => EmptyString
  | S n', String _ s' => slice n' s'
  end.

(** What is left of [s] after a maximal run matched by [.*]. *)
Fixpoint afterDotStar (s : string) : string :=
  match s with
  | EmptyString => EmptyString
  | String c s' => if isLineTerminator c then s else afterDotStar s'
  end.

(** [s.replace(/KEY.*/, repl)] for a literal [KEY] and a replacement
    text without [$]: the leftmost occurrence of [KEY] and the rest of
    its line are replaced; without an occurrence [s] is returned. *)
Fixpoint replaceKeyLine (key repl s : string) : string :=
  if prefix key s then repl ++ afterDotStar (slice (String.length key) s)
  else match s with
       | EmptyString => EmptyString
       | String c s' => String c (replaceKeyLine key repl s')
       end.

(** The maximal run matched by [[^\n]*]. *)
Fixpoint notNewlineStar (s : string) : string :=
  match s with
  | EmptyString => EmptyString
  | String c s' =>
      if Ascii.eqb c "010" then EmptyString
      else String c (notNewlineStar s')
  end.

(** [s.match(/KEY([^\n]+)/)], as the first capture group: the leftmost
    occurrence of the literal [KEY] that a code unit other than [\n]
    follows, and the run up to the next [\n].  [None] is [null]. *)
Fixpoint matchKeyLine (key s : string) : option string :=
  let here :=
    if prefix key s then notNewlineStar (slice (String.length key) s)
    else EmptyString in
  if isEmpty here then
    match s with
    | EmptyString => None
    | String _ s' => matchKeyLine key s'
    end
  else Some here.

(** A maximal run of [\d], and [\d+]; the result is what follows. *)
Fixpoint digitsStar (s : string) : string :=
  match s with
  | EmptyString => EmptyString
  | String c s' => if isDigit c then digitsStar s' else s
  end.

Definition digitsPlus (s : string) : option string :=
  match s with
  | EmptyString => None
  | String c s' => if isDigit c then Some (digitsStar s') else None
  end.

Definition dot (s : string) : option string :=
  match s with
  | String "." s' => Some s'
  | _ => None
  end.

Definition andThen {A B} (o : option A) (k : A -> option B) : option B :=
  match o with Some a => k a | None => None end.

(** [/^\d+\.\d+\.\d+$/.test(s)] *)
Definition testVersion (s : string) : bool :=
  match andThen (andThen (andThen (andThen (digitsPlus s) dot) digitsPlus)
                   dot) digitsPlus with
  | Some EmptyString => true
  | _ => false
  end.

(** Numbers.  The values that [Number], [+ 1] and the comparisons of the
    scripts produce from the components of a version: a natural number
    or [NaN].  A natural number stands for the double of that value,
    which is exact up to [MAX_SAFE_INTEGER]. *)
Inductive number : Type :=
| NaN
| Int (n : N).

Definition MAX_SAFE_INTEGER : N := 9007199254740991.

(** [String(n)] for a natural number. *)
Definition showN (n : N) : string := NilEmpty.string_of_uint (N.to_uint n).

(** [Number(s)] on a component of a dotted version: white space is
    stripped, the empty string is 0, a run of decimal digits is its
    value.  The other numeric literals of ECMAScript (a sign, an
    exponent, a radix prefix, [Infinity]) are outside the model and
    read as [NaN]. *)
Definition Number (s : string) : number :=
  match NilEmpty.uint_of_string (trim s) with
  | Some d => Int (N.of_uint d)
  | None => NaN
  end.

(** An element taken by array destructuring: [None] is [undefined]. *)
Definition element := option number.

(** [`${x}`] *)
Definition show (x : element) : string :=
  match x with
  | None => "undefined"
  | Some NaN => "NaN"
  | Some (Int n) => showN n
  end.

(** [x + 1] *)
Definition succ (x : element) : element :=
  match x with
  | Some (Int n) => Some (Int (n + 1))
  | _ => Some NaN
  end.

(** [x === y] *)
Definition numEq (x y : element) : bool :=
  match x, y with
  | None, None => true
  | Some (Int a), Some (Int b) => a =? b
  | _, _ => false
  end.

(** [x > y] *)
Definition numGt (x y : element) : bool :=
  match x, y with
  | Some (Int a), Some (Int b) => b <? a
  | _, _ => false
  end.

(** [v.split('.').map(Number)] *)
Definition components (v : string) : list number :=
  map Number (split "." v).

(** Values: what [JSON.parse] returns, and [undefined].  A JSON number
    is kept as the text [String] gives for it, so zero is ["0"]; the
    keys of an object are pairwise distinct. *)
#[warnings="-register-all"] Inductive value : Type :=
| Undefined
| Null
| Bool (b : bool)
| Num (repr : string)
| Str (s : string)
| Arr (items : list value)
| Obj (fields : list (string * value)).

(** [!!v] *)
Definition truthy (v : value) : bool :=
  match v with
  | Undefined | Null => false
  | Bool b => b
  | Num r => negb (String.eqb r "0")
  | Str s => negb (isEmpty s)
  | Arr _ | Obj _ => true
  end.

Fixpoint lookup (key : string) (fields : list (string * value)) : value :=
  match fields with
  | [] => Undefined
  | (k, v) :: rest => if String.eqb k key then v else lookup key rest
  end.

Fixpoint hasKey (key : string) (fields : list (string * value)) : bool :=
  match fields with
  | [] => false
  | (k, _) :: rest => String.eqb k key || hasKey key rest
  end.

(** [v[key]]; [None] is the TypeError of reading a property of [null]
    or [undefined]. *)
Definition getProp (v : value) (key : string) : option value :=
  match v with
  | Undefined | Null => None
  | Obj fields => Some (lookup key fields)
  | _ => Some Undefined
  end.

Fixpoint assign (key : string) (x : value) (fields : list (string * value))
  : list (string * value) :=
  match fields with
  | [] => [(key, x)]
  | (k, v) :: rest =>
      if String.eqb k key then (k, x) :: rest
      else (k, v) :: assign key x rest
  end.

(** [v[key] = x] followed by [JSON.stringify(v)]: the document that is
    written.  Outside strict mode the assignment to a primitive is
    dropped, and [JSON.stringify] leaves out a named property of an
    array. *)
Definition setProp (v : value) (key : string) (x : value) : option value :=
  match v with
  | Undefined | Null => None
  | Obj fields => Some (Obj (assign key x fields))
  | _ => Some v
  end.

(** [String(v)], the coercion [RegExp.prototype.test] applies; [None]
    is the TypeError of an object whose own [toString] is not callable. *)
Fixpoint toString (v : value) : option string :=
  match v with
  | Undefined => Some "undefined"
  | Null => Some "null"
  | Bool true => Some "true"
  | Bool false => Some "false"
  | Num r => Some r
  | Str s => Some s
  | Arr items =>
      let item (x : value) : option string :=
        match x with
        | Undefined | Null => Some EmptyString
        | _ => toString x
        end in
      (fix join (l : list value) : option string :=
         match l with
         | [] => Some EmptyString
         | [x] => item x
         | x :: rest =>
             andThen (item x) (fun a =>
             andThen (join rest) (fun b => Some (a ++ "," ++ b)))
         end) items
  | Obj fields =>
      if hasKey "toString" fields then None else Some "[object Object]"
  end.

(** [a !== b] for two values that come from two calls of [JSON.parse]:
    two arrays or two objects are never the same object. *)
Definition strictNe (a b : value) : bool :=
  match a, b with
  | Undefined, Undefined | Null, Null => false
  | Bool x, Bool y => negb (Bool.eqb x y)
  | Num x, Num y => negb (String.eqb x y)
  | Str x, Str y => negb (String.eqb x y)
  | _, _ => true
  end.

End Js.

(** ** The pre-commit hook *)

Module PreCommit.
Import Js.

(** The keys of [FOLDERS], in the order [Object.entries] lists them. *)
Inductive folderName : Type := web | back.

Definition folderNames : list folderName := [web; back].

Definition folderName_eqb (a b : folderName) : bool :=
  match a, b with
  | web, web | back, back => true
  | _, _ => false
  end.

(** The key as text, and [FOLDERS[key].folder]. *)
Definition nameOf (f : folderName) : string :=
  match f with web => "web" | back => "back" end.

Definition folder (f : folderName) : string :=
  match f with web => "web/" | back => "back/" end.

(** The text of a [package.json], as [trim] and [JSON.parse] see it:
    empty once trimmed, rejected by [JSON.parse], or a document.  What
    [JSON.stringify(pkg, null, 2) + '\n'] writes is the document [pkg]. *)
Inductive document : Type :=
| Blank
| Malformed
| Doc (pkg : value).

(** The state a run of the hook reads and writes.  A command or a read
    that fails is [None] (or [false]). *)
Record World : Type := mkWorld {
  gitRevParseHead : bool;
    (* git rev-parse HEAD *)
  gitLsTree : folderName -> option string;
    (* git ls-tree --name-only HEAD <folder>package.json *)
  gitShowHead : folderName -> option document;
    (* git show HEAD:<folder>package.json *)
  gitShowIndex : folderName -> option document;
    (* git show :<folder>package.json *)
  gitDiffCached : folderName -> option string;
    (* git diff --cached --name-only -- <folder> *)
  gitAdd : folderName -> bool;
    (* git add <path> *)
  packageJson : folderName -> option document;
    (* fs.readFileSync(FOLDERS[key].path) *)
  writable : folderName -> bool;
    (* fs.writeFileSync(FOLDERS[key].path, ...) *)
  envFile : option string;
    (* ENV_FILE; None: it does not exist *)
  envWritable : bool;
  historyLog : option string;
    (* HISTORY_LOG; None: it does not exist *)
  clock : nat -> string;
    (* the time stamps, in the order they are taken *)
  ticks : nat
}.

Definition update {A} (g : folderName -> A) (f : folderName) (a : A)
  : folderName -> A :=
  fun f' => if folderName_eqb f f' then a else g f'.

(** [fs.writeFileSync(folderConfig.path, ...)] *)
Definition writePackageJson (w : World) (f : folderName) (d : document)
  : World :=
  mkWorld (gitRevParseHead w) (gitLsTree w) (gitShowHead w)
    (gitShowIndex w) (gitDiffCached w) (gitAdd w)
    (update (packageJson w) f (Some d)) (writable w)
    (envFile w) (envWritable w) (historyLog w) (clock w) (ticks w).

(** The effect of [git add] on the index. *)
Definition stage (w : World) (f : folderName) : World :=
  mkWorld (gitRevParseHead w) (gitLsTree w) (gitShowHead w)
    (update (gitShowIndex w) f (packageJson w f)) (gitDiffCached w)
    (gitAdd w) (packageJson w) (writable w)
    (envFile w) (envWritable w) (historyLog w) (clock w) (ticks w).

Definition writeEnvFile (w : World) (text : string) : World :=
  mkWorld (gitRevParseHead w) (gitLsTree w) (gitShowHead w)
    (gitShowIndex w) (gitDiffCached w) (gitAdd w)
    (packageJson w) (writable w)
    (Some text) (envWritable w) (historyLog w) (clock w) (ticks w).

Definition writeHistoryLog (w : World) (text : option string) : World :=
  mkWorld (gitRevParseHead w) (gitLsTree w) (gitShowHead w)
    (gitShowIndex w) (gitDiffCached w) (gitAdd w)
    (packageJson w) (writable w)
    (envFile w) (envWritable w) text (clock w) (ticks w).

Definition contentOf (file : option string) : string :=
  match file with Some text => text | None => EmptyString end.

(** [manageLog(logFilePath, maxEntries)] on the content of the file:
    whether the log was cleared, and the content afterwards. *)
Definition manageLog (file : option string) (maxEntries : nat)
  : bool * option string :=
  match file with
  | Some text =>
      let lines :=
        filter (fun line => truthy (Str (trim line))) (split "010" text) in
      if (maxEntries <? List.length lines)%nat
      then (true, Some EmptyString)
      else (false, file)
  | None => (false, file)
  end.

Definition defaultMaxEntries : nat := 500.

(** [initLogs()]; the debug log is not part of the state. *)
Definition initLogs (w : World) : World :=
  writeHistoryLog w (snd (manageLog (historyLog w) defaultMaxEntries)).

(** [log(message)] *)
Definition log (w : World) (message : string) : World :=
  let timestamp := clock w (ticks w) in
  mkWorld (gitRevParseHead w) (gitLsTree w) (gitShowHead w)
    (gitShowIndex w) (gitDiffCached w) (gitAdd w)
    (packageJson w) (writable w)
    (envFile w) (envWritable w)
    (Some (contentOf (historyLog w) ++ timestamp ++ " - " ++ message
           ++ String "010" EmptyString))
    (clock w) (S (ticks w)).

(** The default of the readers. *)
Definition zeroVersion : value := Str "0.0.0".

(** [getStagedVersion(folderConfig)]; [Null] is the [null] of the
    [catch].  The template literal of the debug message coerces the
    version to a string, which can throw. *)
Definition getStagedVersion (w : World) (f : folderName) : value :=
  match gitShowIndex w f with
  | Some (Doc pkg) =>
      match getProp pkg "version" with
      | Some version =>
          match toString version with
          | Some _ => version
          | None => Null
          end
      | None => Null
      end
  | _ => Null
  end.

(** [getHeadVersion(folderConfig)] *)
Definition getHeadVersion (w : World) (f : folderName) : value :=
  if negb (gitRevParseHead w) then zeroVersion
  else
    match gitLsTree w f with
    | None => zeroVersion
    | Some out =>
        let exists_ := trim out in
        if isEmpty exists_ then zeroVersion
        else
          match gitShowHead w f with
          | None => zeroVersion
          | Some Blank => zeroVersion
          | Some Malformed => zeroVersion
          | Some (Doc pkg) =>
              match getProp pkg "version" with
              | None => zeroVersion
              | Some version =>
                  if negb (truthy version) then zeroVersion
                  else match toString version with
                       | Some _ => version
                       | None => zeroVersion
                       end
              end
          end
    end.

(** [hasFolderChanges(folderConfig)] *)
Definition hasFolderChanges (w : World) (f : folderName) : bool :=
  match gitDiffCached w f with
  | None => false
  | Some out =>
      let changes := trim out in
      if isEmpty changes then false
      else
        let changedFiles :=
          filter (fun file => negb (isEmpty file)) (split "010" changes) in
        let nonPackageChanges :=
          filter (fun file => negb (endsWith file "package.json"))
            changedFiles in
        (0 <? List.length nonPackageChanges)%nat
  end.

(** The tail shared by the two functions that rewrite a version: write
    the file, then stage it.  [None] is the [null] of the [catch]. *)
Definition writeAndStage (w : World) (f : folderName) (pkg : value)
    (newVersion : string) : option string * World :=
  if writable w f then
    let w1 := writePackageJson w f (Doc pkg) in
    if gitAdd w1 f then (Some newVersion, stage w1 f) else (None, w1)
  else (None, w).

(** [bumpPatchVersion(folderConfig)] *)
Definition bumpPatchVersion (w : World) (f : folderName)
  : option string * World :=
  match packageJson w f with
  | Some (Doc pkg) =>
      match getProp pkg "version" with
      | Some (Str version) =>
          let parts := components version in
          let major := nth_error parts 0 in
          let minor := nth_error parts 1 in
          let patch := nth_error parts 2 in
          let newVersion :=
            show major ++ "." ++ show minor ++ "." ++ show (succ patch) in
          match setProp pkg "version" (Str newVersion) with
          | Some pkg' => writeAndStage w f pkg' newVersion
          | None => (None, w)
          end
      | _ => (None, w)
      end
  | _ => (None, w)
  end.

(** [handleMinorVersionBump(folderConfig, stagedVersion, headVersion)] *)
Definition handleMinorVersionBump (w : World) (f : folderName)
    (stagedVersion headVersion : value) : option string * World :=
  match headVersion, stagedVersion with
  | Str head, Str staged =>
      let headParts := components head in
      let headMajor := nth_error headParts 0 in
      let headMinor := nth_error headParts 1 in
      let stagedParts := components staged in
      let stagedMajor := nth_error stagedParts 0 in
      let stagedMinor := nth_error stagedParts 1 in
      if numEq stagedMajor headMajor && numGt stagedMinor headMinor then
        match packageJson w f with
        | Some (Doc pkg) =>
            let newVersion :=
              show stagedMajor ++ "." ++ show stagedMinor ++ ".0" in
            match setProp pkg "version" (Str newVersion) with
            | Some pkg' => writeAndStage w f pkg' newVersion
            | None => (None, w)
            end
        | _ => (None, w)
        end
      else (None, w)
  | _, _ => (None, w)
  end.

(** [getCurrentVersion(folderConfig)] *)
Definition getCurrentVersion (w : World) (f : folderName) : value :=
  match packageJson w f with
  | Some (Doc pkg) =>
      match getProp pkg "version" with
      | None => zeroVersion
      | Some version =>
          if negb (truthy version) then zeroVersion
          else match toString version with
               | None => zeroVersion
               | Some text =>
                   if negb (testVersion text) then zeroVersion
                   else version
               end
      end
  | _ => zeroVersion
  end.

Definition TAG_KEY : string := "TAG_VERSION=".

(** The tag version of [updateEnvTagVersion]:
    [`${backMinor}.${backPatch}.${webMinor}.${webPatch}`] *)
Definition newTagVersion (backVersion webVersion : string) : string :=
  let backParts := components backVersion in
  let webParts := components webVersion in
  let backMinor := nth_error backParts 1 in
  let backPatch := nth_error backParts 2 in
  let webMinor := nth_error webParts 1 in
  let webPatch := nth_error webParts 2 in
  show backMinor ++ "." ++ show backPatch ++ "." ++ show webMinor
  ++ "." ++ show webPatch.

(** The text [updateEnvTagVersion] writes for a content of the
    environment file. *)
Definition updateEnvContent (envContent tagVersion : string) : string :=
  let envContent' :=
    if includes envContent TAG_KEY
    then replaceKeyLine TAG_KEY (TAG_KEY ++ tagVersion) envContent
    else envContent ++ TAG_KEY ++ tagVersion ++ String "010" EmptyString in
  trim envContent'.

(** [updateEnvTagVersion()] *)
Definition updateEnvTagVersion (w : World) : option string * World :=
  match getCurrentVersion w back, getCurrentVersion w web with
  | Str backVersion, Str webVersion =>
      let tagVersion := newTagVersion backVersion webVersion in
      let envContent := contentOf (envFile w) in
      if envWritable w then
        let w1 := writeEnvFile w (updateEnvContent envContent tagVersion) in
        (Some tagVersion,
         log w1 ("Updated TAG_VERSION to " ++ tagVersion
                 ++ " (not committed)"))
      else (None, w)
  | _, _ => (None, w)
  end.

(** The branch of the loop body that ran. *)
Inductive outcome : Type :=
| ResetPatch (newVersion : string)
| ManualChange (stagedVersion : value)
| AutoBump (newVersion : option string)
| NoChange.

Definition textOf (v : value) : string :=
  match toString v with Some text => text | None => EmptyString end.

(** The body of the main loop, for one entry of [FOLDERS]. *)
Definition processFolder (w : World) (f : folderName) : outcome * World :=
  let folderName := nameOf f in
  let stagedVersion := getStagedVersion w f in
  let headVersion := getHeadVersion w f in
  let folderChangesExist := hasFolderChanges w f in
  let '(minorBumpVersion, w1) :=
    if truthy stagedVersion && truthy headVersion
    then handleMinorVersionBump w f stagedVersion headVersion
    else (None, w) in
  match minorBumpVersion with
  | Some version =>
      (ResetPatch version,
       log w1 (folderName
               ++ " version: Reset patch to 0 after minor version bump: "
               ++ version))
  | None =>
      if truthy stagedVersion && truthy headVersion
         && strictNe stagedVersion headVersion
      then
        (ManualChange stagedVersion,
         log w1 (folderName ++ " version manually changed to "
                 ++ textOf stagedVersion))
      else if folderChangesExist then
        match bumpPatchVersion w1 f with
        | (Some newVersion, w2) =>
            (AutoBump (Some newVersion),
             log w2 (folderName ++ " version auto-bumped to " ++ newVersion
                     ++ " (" ++ folderName ++ " files changed)"))
        | (None, w2) => (AutoBump None, w2)
        end
      else
        (NoChange,
         log w1 ("No " ++ folderName ++ " version change needed (no "
                 ++ folderName ++ " changes detected)"))
  end.

(** The main program: [initLogs], the loop, [updateEnvTagVersion]. *)
Definition main (w : World) : World :=
  let w0 := initLogs w in
  let w2 := fold_left (fun w1 f => snd (processFolder w1 f)) folderNames w0 in
  snd (updateEnvTagVersion w2).

End PreCommit.

(** ** The version-control commands of the tag publishers *)

Module Git.

(** What the publishers ask of [git], over a state [G] of the local and
    the remote repository.  A command that changes the state returns
    whether it succeeded and the state it leaves. *)
Record Ops (G : Type) : Type := mkOps {
  revParse : G -> string -> bool;
    (* git rev-parse <name> succeeds *)
  tagList : G -> string -> option string;
    (* the output of git tag -l "<name>" *)
  tagCreate : G -> string -> bool * G;
    (* git tag -a <name> -m "<name>" *)
  pushTag : G -> string -> bool * G;
    (* git push origin <name> *)
  lsRemote : G -> option string
    (* the output of git ls-remote --tags origin *)
}.

Arguments revParse {G} _ _ _.
Arguments tagList {G} _ _ _.
Arguments tagCreate {G} _ _ _.
Arguments pushTag {G} _ _ _.
Arguments lsRemote {G} _ _.

(** A repository kept in memory: the tags of the local and of the remote
    repository.  Creating a tag that exists fails; pushing a tag the
    remote has, or one that was not created, fails. *)
Record Store : Type := mkStore {
  localTags : list string;
  remoteTags : list string
}.

Definition hasTag (tags : list string) (name : string) : bool :=
  existsb (String.eqb name) tags.

Definition remoteLine (name : string) : string :=
  "0000000000000000000000000000000000000000" ++ String "009" EmptyString
  ++ "refs/tags/" ++ name ++ String "010" EmptyString.

Definition memory : Ops Store :=
  mkOps Store
    (fun g name => hasTag (localTags g) name)
    (fun g name =>
       Some (if hasTag (localTags g) name
             then name ++ String "010" EmptyString else EmptyString))
    (fun g name =>
       if hasTag (localTags g) name then (false, g)
       else (true, mkStore (name :: localTags g) (remoteTags g)))
    (fun g name =>
       if hasTag (localTags g) name && negb (hasTag (remoteTags g) name)
       then (true, mkStore (localTags g) (name :: remoteTags g))
       else (false, g))
    (fun g => Some (String.concat EmptyString (map remoteLine (remoteTags g)))).

(** What the main program of the post-commit hook asks of [git] beside
    the commands of the publishers. *)
Record HookOps (G : Type) : Type := mkHookOps {
  logMessage : G -> option string;
    (* the output of git log -1 --pretty=%B *)
  symbolicRef : G -> option string;
    (* the output of git symbolic-ref --short HEAD *)
  pushHead : G -> bool * G
    (* git push origin HEAD *)
}.

Arguments logMessage {G} _ _.
Arguments symbolicRef {G} _ _.
Arguments pushHead {G} _ _.

(** A commit with the message [message] on the branch [branch]; pushing
    it succeeds and leaves the tags as they are. *)
Definition memoryHook (message branch : string) : HookOps Store :=
  mkHookOps Store
    (fun _ => Some (message ++ String "010" EmptyString))
    (fun _ => Some (branch ++ String "010" EmptyString))
    (fun g => (true, g)).

End Git.

(** [getTagVersion()], the same in [build/deploy.js] and in the
    post-commit hook: the text after the first [TAG_VERSION=] of the
    environment file, or [None] for the error it throws.  The argument is
    the content of the file; [None]: reading it fails. *)
Definition getTagVersion (envFile : option string) : option string :=
  match envFile with
  | Some envContent => Js.matchKeyLine "TAG_VERSION=" envContent
  | None => None
  end.

(** ** [build/deploy.js] *)

Module Deploy.
Import Js Git.

Definition maxAttempts : nat := 100.

(** How [createAndPushTag] ends: it returns the tag, or the process
    exits with a code. *)
Inductive result : Type :=
| Returned (tag : string)
| Exit (code : N).

(** [counter === 0 ? tagName : `${tagName}-${counter}`] *)
Definition currentTag (tagName : string) (counter : N) : string :=
  if counter =? 0 then tagName else tagName ++ "-" ++ showN counter.

Section Publisher.
Context {G : Type} (git : Ops G).

(** [tagExists(tagName)] *)
Definition tagExists (g : G) (tagName : string) : bool :=
  revParse git g tagName.

(** The [while] loop of [createAndPushTag].  [remaining] is
    [maxAttempts - counter], so the loop runs while it is positive.
    The result is the tag that was published, if any, the values of
    [currentTag] in the order they were tried, and the state. *)
Fixpoint attempts (remaining : nat) (counter : N) (tagName : string)
    (g : G) : option string * list string * G :=
  match remaining with
  | O => (None, [], g)
  | S remaining' =>
      let tag := currentTag tagName counter in
      let retry (g' : G) :=
        let '(published, tried, g'') :=
          attempts remaining' (counter + 1) tagName g' in
        (published, tag :: tried, g'') in
      if tagExists g tag then retry g
      else
        let '(created, g1) := tagCreate git g tag in
        if created then
          let '(pushed, g2) := pushTag git g1 tag in
          if pushed then (Some tag, [tag], g2) else retry g2
        else retry g1
  end.

(** [createAndPushTag()] *)
Definition createAndPushTag (envFile : option string) (g : G)
  : result * list string * G :=
  match getTagVersion envFile with
  | None => (Exit 1, [], g)
  | Some baseTagVersion =>
      let tagName := "v" ++ baseTagVersion in
      match attempts maxAttempts 0 tagName g with
      | (Some tag, tried, g') => (Returned tag, tried, g')
      | (None, tried, g') => (Exit 1, tried, g')
      end
  end.

End Publisher.

End Deploy.

(** ** The post-commit hook *)

Module PostCommit.
Import Js Git.

Section Publisher.
Context {G : Type} (git : Ops G).

(** [createAndPushTag()]: the tag that was published, or [None] for
    the error it throws again, and the state. *)
Definition createAndPushTag (envFile : option string) (g : G)
  : option string * G :=
  match getTagVersion envFile with
  | None => (None, g)
  | Some version =>
      let tagName := "v" ++ version in
      match tagList git g tagName with
      | None => (None, g)
      | Some listed =>
          if String.eqb (trim listed) tagName then (None, g)
          else
            let '(created, g1) := tagCreate git g tagName in
            if created then
              let '(pushed, g2) := pushTag git g1 tagName in
              if pushed then
                match lsRemote git g2 with
                | None => (None, g2)
                | Some remoteTags =>
                    if includes remoteTags ("refs/tags/" ++ tagName)
                    then (Some tagName, g2)
                    else (None, g2)
                end
              else (None, g2)
            else (None, g1)
      end
  end.

End Publisher.

Section Main.
Context {G : Type} (git : Ops G) (hook : HookOps G).

(** The main program, after [initLogs]: the tag that was published, if
    any, and the state.  Every error is caught and logged; the program
    ends without an exit code of its own. *)
Definition main (envFile : option string) (g : G) : option string * G :=
  match logMessage hook g with
  | None => (None, g)
  | Some out =>
      let commitMsg := trim out in
      if includes commitMsg "-d" then
        match symbolicRef hook g with
        | None => (None, g)
        | Some out' =>
            let branch := trim out' in
            if negb (String.eqb branch "main" || String.eqb branch "master")
            then (None, g)
            else
              match createAndPushTag git envFile g with
              | (Some tag, g1) => (Some tag, snd (pushHead hook g1))
              | (None, g1) => (None, g1)
              end
        end
      else (None, g)
  end.

End Main.

End PostCommit.

(** ** Semantic versions *)

(** The triple of the data model, and its textual form. *)
Record SemanticVersion : Type := mkVersion {
  major : N;
  minor : N;
  patch : N
}.

Definition render (v : SemanticVersion) : string :=
  Js.showN (major v) ++ "." ++ Js.showN (minor v) ++ "." ++ Js.showN (patch v).

(** The components are in the range where a JavaScript number is the
    integer it stands for. *)
Definition safe (v : SemanticVersion) : Prop :=
  major v <= Js.MAX_SAFE_INTEGER /\ minor v <= Js.MAX_SAFE_INTEGER
  /\ patch v <= Js.MAX_SAFE_INTEGER.

(** A [package.json] whose [version] field is the text [v], among other
    fields. *)
Definition packageOf (v : string) : PreCommit.document :=
  PreCommit.Doc (Js.Obj [("name", Js.Str "app"); ("version", Js.Str v)]).

(** ** Lines, log entries *)

(** [c] does not occur in [s]. *)
Fixpoint lacks (c : ascii) (s : string) : bool :=
  match s with
  | EmptyString => true
  | String c' s' => negb (Ascii.eqb c' c) && lacks c s'
  end.

Definition LF : ascii := "010".
Definition CR : ascii := "013".

Definition lines (text : string) : list string := Js.split LF text.

(** A log entry of one line: it holds no line feed and is not blank. *)
Definition isEntry (entry : string) : bool :=
  lacks LF entry && negb (Js.isEmpty (Js.trim entry)).

(** The log file that holds the entries, each followed by a line feed, as
    [fs.appendFileSync] leaves them. *)
Fixpoint logText (entries : list string) : string :=
  match entries with
  | [] => EmptyString
  | entry :: rest => entry ++ String LF (logText rest)
  end.

(** Every code unit of [s] satisfies [p]. *)
Fixpoint every (p : ascii -> bool) (s : string) : bool :=
  match s with
  | EmptyString => true
  | String c s' => p c && every p s'
  end.

(** ** Concrete states *)

(** A repository with a HEAD commit in which every command and every
    write succeeds: the metadata files of HEAD, of the index and of the
    working tree, the staged paths and the environment file are given. *)
Definition worldOf
    (head index tree : PreCommit.folderName -> option PreCommit.document)
    (staged : PreCommit.folderName -> option string) (env : option string)
  : PreCommit.World :=
  PreCommit.mkWorld true
    (fun f =>
       match head f with
       | Some _ =>
           Some (PreCommit.folder f ++ "package.json" ++ String LF EmptyString)
       | None => Some EmptyString
       end)
    head index staged (fun _ => true) tree (fun _ => true)
    env true (Some EmptyString) (fun _ => "2026-01-01 00:00:00") 0.

(** The text of a tag version made of four numbers. *)
Definition tagText (a b c d : N) : string :=
  Js.showN a ++ "." ++ Js.showN b ++ "." ++ Js.showN c ++ "." ++ Js.showN d.

(** The version that [handleMinorVersionBump] writes. *)
Definition resetVersion (staged : SemanticVersion) : string :=
  Js.showN (major staged) ++ "." ++ Js.showN (minor staged) ++ ".0".

(** The history log after [log(message)]. *)
Definition logged (w : PreCommit.World) (message : string) : option string :=
  Some (PreCommit.contentOf (PreCommit.historyLog w)
        ++ PreCommit.clock w (PreCommit.ticks w) ++ " - " ++ message
        ++ String LF EmptyString).

(** The version that [bumpPatchVersion] writes over the version [v]. *)
Definition bumpedVersion (v : SemanticVersion) : SemanticVersion :=
  mkVersion (major v) (minor v) (patch v + 1).

(** A state where the metadata file of every folder has the version
    [head] in HEAD, [index] in the index and [tree] in the working tree,
    and a source file of every folder is staged. *)
Definition worldAt (head index tree : string) : PreCommit.World :=
  worldOf (fun _ => Some (packageOf head)) (fun _ => Some (packageOf index))
    (fun _ => Some (packageOf tree))
    (fun f => Some (PreCommit.folder f ++ "src/app.js")) None.

(** A state where the metadata file of every folder is neither in HEAD
    nor in the index, the working tree has it with the version [tree],
    and a source file of every folder is staged. *)
Definition untrackedWorld (tree : string) : PreCommit.World :=
  worldOf (fun _ => None) (fun _ => None) (fun _ => Some (packageOf tree))
    (fun f => Some (PreCommit.folder f ++ "src/app.js")) None.

(** The staged version is absent, or it is the version [head]. *)
Definition stagedIs (w : PreCommit.World) (f : PreCommit.folderName)
    (head : SemanticVersion) : Prop :=
  PreCommit.getStagedVersion w f = Js.Str (render head)
  \/ Js.truthy (PreCommit.getStagedVersion w f) = false.

(** The lines of the prior content of the environment file that are not
    blank and do not hold the key are lines of what is written. *)
Definition keepsOtherLines (prior written : string) : Prop :=
  forall line,
    In line (lines prior) ->
    Js.includes line PreCommit.TAG_KEY = false ->
    Js.isEmpty (Js.trim line) = false ->
    In line (lines written).

(** The leftmost occurrence of [key] in [s] is at the start of a line;
    [lineStart] tells whether [s] itself starts a line. *)
Fixpoint firstKeyAtLineStart (key : string) (lineStart : bool) (s : string)
  : bool :=
  if prefix key s then lineStart
  else match s with
       | EmptyString => false
       | String c s' => firstKeyAtLineStart key (Ascii.eqb c LF) s'
       end.

(** How [updateEnvTagVersion] changes the lines of the environment file
    before it trims the text: [prior] is the content it reads, [text] the
    content it trims and writes.  The line of the key is the first line
    that holds the key; what follows the key up to the end of the line,
    or up to a carriage return, is replaced. *)
Definition replacesTagLine (prior text tag : string) : Prop :=
  exists (before after : list string) (old tail : string),
    lines prior
    = (before ++ (PreCommit.TAG_KEY ++ old ++ tail)%string :: after)%list
    /\ lines text
       = (before ++ (PreCommit.TAG_KEY ++ tag ++ tail)%string :: after)%list
    /\ forallb (fun l => negb (Js.includes l PreCommit.TAG_KEY)) before = true
    /\ every (fun c => negb (Js.isLineTerminator c)) old = true
    /\ (tail = EmptyString \/ exists t, tail = String CR t).

Definition appendsTagLine (prior text tag : string) : Prop :=
  exists kept : list string,
    lines prior = (kept ++ [EmptyString])%list
    /\ lines text
       = (kept ++ [(PreCommit.TAG_KEY ++ tag)%string; EmptyString])%list.

(** What [updateEnvTagVersion] leaves in the environment file: the
    trimmed form of a text.  When the first occurrence of the key starts
    a line, the text has the lines of the prior content except that line;
    without the key, in a content that is empty or ends with a line feed,
    the text has those lines and a new one. *)
Definition envUpdated (prior : string) (written : option string)
    (tag : string) : Prop :=
  exists text,
    written = Some (Js.trim text)
    /\ (firstKeyAtLineStart PreCommit.TAG_KEY true prior = true ->
        replacesTagLine prior text tag)
    /\ (Js.includes prior PreCommit.TAG_KEY = false ->
        (prior = EmptyString
         \/ exists c0, prior = c0 ++ String LF EmptyString) ->
        appendsTagLine prior text tag).

(** A state whose working tree has the metadata files with the versions
    [backVersion] and [webVersion], and the environment file [env]. *)
Definition envWorld (backVersion webVersion : string) (env : option string)
  : PreCommit.World :=
  worldOf (fun _ => None) (fun _ => None)
    (fun f => match f with
              | PreCommit.back => Some (packageOf backVersion)
              | PreCommit.web => Some (packageOf webVersion)
              end)
    (fun _ => None) env.

(** ** Runs of the tag publishers *)

(** The values of [counter] over [n] iterations from [start]. *)
Fixpoint counters (start : N) (n : nat) : list N :=
  match n with
  | O => []
  | S n' => start :: counters (start + 1) n'
  end.

Definition outcomeOf {A G : Type} (run : A * list string * G) : A :=
  fst (fst run).

Definition triedOf {A G : Type} (run : A * list string * G) : list string :=
  snd (fst run).

Definition stateOf {A G : Type} (run : A * list string * G) : G := snd run.

(** The two publishers agree: both publish the same tag, or both fail. *)
Definition agree (deploy : Deploy.result) (hook : option string) : Prop :=
  match deploy, hook with
  | Deploy.Returned a, Some b => a = b
  | Deploy.Exit _, None => True
  | _, _ => False
  end.

(** An environment file with a tag version, and a repository whose only
    tag is the one of that version. *)
Definition envOfTag : option string := Some "TAG_VERSION=1.0.0.0".

Definition storeWithTag : Git.Store := Git.mkStore ["v1.0.0.0"] [].

Definition envOfFreeTag : option string := Some "TAG_VERSION=1.0.0.1".

(** A repository that has the first [n] candidate names of a tag. *)
Definition storeWithCandidates (tagName : string) (n : nat) : Git.Store :=
  Git.mkStore (map (Deploy.currentTag tagName) (counters 0 n)) [].

(** What holds of a run of the loop of [Deploy.createAndPushTag] that
    starts at [counter] with [remaining] iterations left: the names tried
    are the candidates of the successive counters, there are no more of
    them than iterations, and the run ends on the last name tried or
    after all the iterations. *)
Definition wellShaped {G : Type} (tagName : string) (remaining : nat)
    (counter : N) (run : option string * list string * G) : Prop :=
  triedOf run
  = map (Deploy.currentTag tagName)
      (counters counter (List.length (triedOf run)))
  /\ (List.length (triedOf run) <= remaining)%nat
  /\ match outcomeOf run with
     | None => List.length (triedOf run) = remaining
     | Some tag =>
         exists n, List.length (triedOf run) = S n
                   /\ tag = Deploy.currentTag tagName (counter + N.of_nat n)
     end.

(** ** Tag versions as text *)

(** A text that can stand for a tag version in the environment file: it
    is not empty and holds no white space, so no line terminator. *)
Definition tagLike (tag : string) : bool :=
  negb (Js.isEmpty tag) && every (fun c => negb (Js.isWhiteSpace c)) tag.

(** A text that is empty or starts with a line terminator. *)
Definition atLineEnd (post : string) : Prop :=
  post = EmptyString
  \/ exists c t, post = String c t /\ Js.isLineTerminator c = true.

(** ** Frames *)


(** The message of the loop body when no version changes. *)
Definition noChangeMessage (f : PreCommit.folderName) : string :=
  "No " ++ PreCommit.nameOf f ++ " version change needed (no "
  ++ PreCommit.nameOf f ++ " changes detected)".

(** A state where the metadata file of every folder has the version
    [version] in HEAD, in the index and in the working tree, and is the
    only path staged (its formatting changed, say). *)
Definition onlyMetadataStaged (version : string) : PreCommit.World :=
  worldOf (fun _ => Some (packageOf version))
    (fun _ => Some (packageOf version)) (fun _ => Some (packageOf version))
    (fun f => Some (PreCommit.folder f ++ "package.json")) None.

(** ** Staged paths, log entries *)

(** A path as [git diff --name-only] prints it on a line: it holds no
    line feed and neither starts nor ends with white space. *)
Definition isPath (path : string) : bool :=
  lacks LF path
  && match path with
     | EmptyString => false
     | String c _ => negb (Js.isWhiteSpace c)
     end
  && String.eqb (Js.trimEnd path) path.

(** The lines, with a line feed between two of them. *)
Fixpoint joinLines (ls : list string) : string :=
  match ls with
  | [] => EmptyString
  | [l] => l
  | l :: rest => l ++ String LF (joinLines rest)
  end.

(** The number of entries [manageLog] counts in a log file. *)
Definition entryCount (text : string) : nat :=
  List.length
    (filter (fun line => Js.truthy (Js.Str (Js.trim line))) (lines text)).

(** The entry that [log(message)] appends in the state [w]. *)
Definition entryOf (w : PreCommit.World) (message : string) : string :=
  PreCommit.clock w (PreCommit.ticks w) ++ " - " ++ message.

(** A state where the history log holds a few entries. *)
Definition worldWithLog (entries : list string) : PreCommit.World :=
  PreCommit.writeHistoryLog (worldAt "1.0.0" "1.0.0" "1.0.0")
    (Some (logText entries)).

(** A state whose working tree has the metadata file of web only. *)
Definition webOnlyWorld (webVersion : string) : PreCommit.World :=
  worldOf (fun _ => None) (fun _ => None)
    (fun f => match f with
              | PreCommit.back => None
              | PreCommit.web => Some (packageOf webVersion)
              end)
    (fun _ => None) None.

(** ** Numbers as text, ready folders *)

(** A run of decimal digits that is not empty: what [\d+] matches. *)
Definition isNumberText (s : string) : bool :=
  negb (Js.isEmpty s) && every Js.isDigit s.

(** The folder [f] is ready for an automatic bump of the version [v]: the
    version of HEAD is [v], the staged version is absent or [v], a file
    other than the metadata file is staged, and the metadata file of the
    working tree is an object with the fields [fields] and the version
    [v] that can be written and staged. *)
Definition bumpReady (w : PreCommit.World) (f : PreCommit.folderName)
    (v : SemanticVersion) (fields : list (string * Js.value)) : Prop :=
  PreCommit.getHeadVersion w f = Js.Str (render v)
  /\ stagedIs w f v
  /\ PreCommit.hasFolderChanges w f = true
  /\ PreCommit.packageJson w f = Some (PreCommit.Doc (Js.Obj fields))
  /\ Js.lookup "version" fields = Js.Str (render v)
  /\ PreCommit.writable w f = true
  /\ PreCommit.gitAdd w f = true.

(** The metadata object after the bump of the version [v]. *)
Definition bumpedPackage (v : SemanticVersion)
    (fields : list (string * Js.value)) : PreCommit.document :=
  PreCommit.Doc
    (Js.Obj (Js.assign "version" (Js.Str (render (bumpedVersion v))) fields)).

(** * Properties *)

(** ** Text *)

Lemma append_assoc (a b c : string) : (a ++ b) ++ c = a ++ (b ++ c).
Proof.
  induction a as [|x a IH]; simpl; [reflexivity|].
  now rewrite IH.
Qed.

Lemma append_empty_r (a : string) : a ++ EmptyString = a.
Proof.
  induction a as [|x a IH]; simpl; [reflexivity|].
  now rewrite IH.
Qed.

Lemma split_not_nil (sep : ascii) (s : string) : Js.split sep s <> [].
Proof.
  destruct s as [|c s]; simpl; [discriminate|].
  destruct (Ascii.eqb c sep); [discriminate|].
  destruct (Js.split sep s); discriminate.
Qed.

(** A piece without the separator, followed by the separator, is the first
    element of the split. *)
Lemma split_piece (sep : ascii) (a b : string) :
  lacks sep a = true ->
  Js.split sep (a ++ String sep b) = a :: Js.split sep b.
Proof.
  induction a as [|x a IH]; simpl; intros H.
  - now rewrite Ascii.eqb_refl.
  - apply andb_true_iff in H as [Hx Ha].
    apply negb_true_iff in Hx. rewrite Hx, (IH Ha). reflexivity.
Qed.

Lemma split_whole (sep : ascii) (a : string) :
  lacks sep a = true -> Js.split sep a = [a].
Proof.
  induction a as [|x a IH]; simpl; intros H; [reflexivity|].
  apply andb_true_iff in H as [Hx Ha].
  apply negb_true_iff in Hx. rewrite Hx, (IH Ha). reflexivity.
Qed.

(** ** Log rotation *)

Lemma lines_logText (entries : list string) :
  forallb isEntry entries = true ->
  lines (logText entries) = (entries ++ [EmptyString])%list.
Proof.
  unfold lines.
  induction entries as [|e es IH]; simpl; intros H; [reflexivity|].
  apply andb_true_iff in H as [He Hes].
  apply andb_true_iff in He as [Hlf _].
  rewrite (split_piece LF e (logText es) Hlf), (IH Hes). reflexivity.
Qed.

Lemma filter_entries (entries : list string) :
  forallb isEntry entries = true ->
  filter (fun line => Js.truthy (Js.Str (Js.trim line)))
    (entries ++ [EmptyString])%list = entries.
Proof.
  induction entries as [|e es IH]; intros H; [reflexivity|].
  cbn [forallb] in H. apply andb_true_iff in H as [He Hes].
  apply andb_true_iff in He as [_ Hblank].
  rewrite <- app_comm_cons. cbn [filter]. rewrite (IH Hes).
  cbn [Js.truthy]. rewrite Hblank. reflexivity.
Qed.

(** The log is cleared exactly when it holds more entries than the
    limit. *)
Lemma manageLog_entries (entries : list string) (maxEntries : nat) :
  forallb isEntry entries = true ->
  PreCommit.manageLog (Some (logText entries)) maxEntries =
  if (maxEntries <? List.length entries)%nat
  then (true, Some EmptyString)
  else (false, Some (logText entries)).
Proof.
  intros H. unfold PreCommit.manageLog.
  change (Js.split "010" (logText entries)) with (lines (logText entries)).
  rewrite (lines_logText entries H), (filter_entries entries H).
  reflexivity.
Qed.

(** C9.  Under the limit of 500 entries that [manageLog] has by default,
    a log file of 501 one-line entries is cleared by [manageLog], so also
    by the [initLogs] that starts a run of the hook, and a log file of
    exactly 500 entries is left as it is. *)
Theorem log_rotation_at_limit (entries : list string) :
  forallb isEntry entries = true ->
  (List.length entries = 501%nat ->
   PreCommit.manageLog (Some (logText entries)) PreCommit.defaultMaxEntries
   = (true, Some EmptyString)
   /\ forall w, PreCommit.historyLog w = Some (logText entries) ->
        PreCommit.historyLog (PreCommit.initLogs w) = Some EmptyString)
  /\ (List.length entries = 500%nat ->
      PreCommit.manageLog (Some (logText entries)) PreCommit.defaultMaxEntries
      = (false, Some (logText entries))
      /\ forall w, PreCommit.historyLog w = Some (logText entries) ->
           PreCommit.historyLog (PreCommit.initLogs w)
           = Some (logText entries)).
Proof.
  intros H.
  pose proof (manageLog_entries entries PreCommit.defaultMaxEntries H) as E.
  split; intros L; rewrite L in E;
    match type of E with
    | _ = (if ?b then _ else _) =>
        let v := eval vm_compute in b in change b with v in E
    end;
    (split; [exact E|]);
    intros w Hw; unfold PreCommit.initLogs; rewrite Hw, E; reflexivity.
Qed.

Lemma log_rotation_at_limit_witness :
  PreCommit.manageLog (Some (logText (repeat "2026-01-01 00:00:00 - x" 501)))
    PreCommit.defaultMaxEntries = (true, Some EmptyString)
  /\ PreCommit.manageLog (Some (logText (repeat "2026-01-01 00:00:00 - x" 500)))
       PreCommit.defaultMaxEntries
     = (false, Some (logText (repeat "2026-01-01 00:00:00 - x" 500))).
Proof.
  split.
  - apply (proj1 (log_rotation_at_limit
                    (repeat "2026-01-01 00:00:00 - x" 501) eq_refl)).
    reflexivity.
  - apply (proj2 (log_rotation_at_limit
                    (repeat "2026-01-01 00:00:00 - x" 500) eq_refl)).
    reflexivity.
Defined.

(** ** Versions as text *)

(** The components of a version given by numerals are in the safe
    range. *)
Ltac safe_components := unfold safe; simpl; repeat split; discriminate.

Lemma every_append (p : ascii -> bool) (a b : string) :
  every p (a ++ b) = every p a && every p b.
Proof.
  induction a as [|x a IH]; simpl; [reflexivity|].
  now rewrite IH, andb_assoc.
Qed.

Lemma every_weaken (p q : ascii -> bool) (s : string) :
  (forall c, p c = true -> q c = true) ->
  every p s = true -> every q s = true.
Proof.
  intros Hpq. induction s as [|x s IH]; simpl; [reflexivity|].
  intros H. apply andb_true_iff in H as [Hx Hs].
  now rewrite (Hpq x Hx), (IH Hs).
Qed.

Lemma lacks_every (c : ascii) (s : string) :
  lacks c s = every (fun x => negb (Ascii.eqb x c)) s.
Proof.
  induction s as [|x s IH]; simpl; [reflexivity|]. now rewrite IH.
Qed.

Lemma digit_cases (c : ascii) :
  Js.isDigit c = true ->
  Js.isWhiteSpace c = false /\ Ascii.eqb c "." = false
  /\ Ascii.eqb c LF = false /\ Ascii.eqb c "-" = false.
Proof.
  destruct c as [[] [] [] [] [] [] [] []]; vm_compute; intros H;
    try discriminate H; repeat split.
Qed.

Lemma string_of_uint_digits (d : uint) :
  every Js.isDigit (NilEmpty.string_of_uint d) = true.
Proof.
  induction d; simpl; try reflexivity; exact IHd.
Qed.

Lemma showN_digits (n : N) : every Js.isDigit (Js.showN n) = true.
Proof. apply string_of_uint_digits. Qed.

Lemma showN_not_empty (n : N) : Js.isEmpty (Js.showN n) = false.
Proof.
  unfold Js.showN. destruct n as [|p]; [reflexivity|].
  simpl. pose proof (DecimalPos.Unsigned.to_uint_nonnil p) as H.
  destruct (Pos.to_uint p); try reflexivity. now elim H.
Qed.

Lemma showN_inj (n m : N) : Js.showN n = Js.showN m -> n = m.
Proof.
  unfold Js.showN. intros H.
  apply DecimalN.Unsigned.to_uint_inj.
  apply (f_equal NilEmpty.uint_of_string) in H.
  rewrite !NilEmpty.usu in H. now injection H.
Qed.

Lemma digits_lack_dot (s : string) :
  every Js.isDigit s = true -> lacks "." s = true.
Proof.
  rewrite lacks_every. apply every_weaken.
  intros c Hc. now destruct (digit_cases c Hc) as (_ & -> & _).
Qed.

Lemma trimStart_solid (s : string) :
  every (fun c => negb (Js.isWhiteSpace c)) s = true -> Js.trimStart s = s.
Proof.
  destruct s as [|c s]; simpl; [reflexivity|].
  intros H. apply andb_true_iff in H as [Hc _].
  apply negb_true_iff in Hc. now rewrite Hc.
Qed.

Lemma trimEnd_solid (s : string) :
  every (fun c => negb (Js.isWhiteSpace c)) s = true -> Js.trimEnd s = s.
Proof.
  induction s as [|c s IH]; simpl; [reflexivity|].
  intros H. apply andb_true_iff in H as [Hc Hs].
  apply negb_true_iff in Hc. now rewrite Hc, (IH Hs).
Qed.

(** A text without white space is its own trimmed form. *)
Lemma trim_solid (s : string) :
  every (fun c => negb (Js.isWhiteSpace c)) s = true -> Js.trim s = s.
Proof.
  intros H. unfold Js.trim. rewrite (trimStart_solid s H).
  now apply trimEnd_solid.
Qed.

Lemma digits_solid (s : string) :
  every Js.isDigit s = true ->
  every (fun c => negb (Js.isWhiteSpace c)) s = true.
Proof.
  apply every_weaken. intros c Hc.
  destruct (digit_cases c Hc) as (-> & _). reflexivity.
Qed.

(** [Number(String(n))] is [n]. *)
Lemma Number_showN (n : N) : Js.Number (Js.showN n) = Js.Int n.
Proof.
  unfold Js.Number.
  rewrite (trim_solid _ (digits_solid _ (showN_digits n))).
  unfold Js.showN. rewrite NilEmpty.usu.
  now rewrite DecimalN.Unsigned.of_to.
Qed.

(** The components that [split('.').map(Number)] takes from the text of a
    version. *)
Lemma components_render (v : SemanticVersion) :
  Js.components (render v)
  = [Js.Int (major v); Js.Int (minor v); Js.Int (patch v)].
Proof.
  unfold Js.components, render.
  change (Js.showN (major v) ++ "." ++ Js.showN (minor v) ++ "."
          ++ Js.showN (patch v))
    with (Js.showN (major v)
          ++ String "." (Js.showN (minor v)
                         ++ String "." (Js.showN (patch v)))).
  rewrite !split_piece by (apply digits_lack_dot, showN_digits).
  rewrite split_whole by (apply digits_lack_dot, showN_digits).
  simpl. now rewrite !Number_showN.
Qed.

Lemma digitsStar_run (s rest : string) :
  every Js.isDigit s = true ->
  Js.digitsStar rest = rest ->
  Js.digitsStar (s ++ rest) = rest.
Proof.
  intros Hs Hrest. induction s as [|c s IH]; simpl; [exact Hrest|].
  simpl in Hs. apply andb_true_iff in Hs as [Hc Hs].
  rewrite Hc. now apply IH.
Qed.

Lemma digitsPlus_showN (n : N) (rest : string) :
  Js.digitsStar rest = rest ->
  Js.digitsPlus (Js.showN n ++ rest) = Some rest.
Proof.
  intros Hrest.
  pose proof (showN_digits n) as Hd. pose proof (showN_not_empty n) as He.
  destruct (Js.showN n) as [|c s]; [discriminate He|].
  simpl in Hd. apply andb_true_iff in Hd as [Hc Hs].
  simpl. rewrite Hc. f_equal. now apply digitsStar_run.
Qed.

(** The text of a version matches [/^\d+\.\d+\.\d+$/]. *)
Lemma testVersion_render (v : SemanticVersion) :
  Js.testVersion (render v) = true.
Proof.
  unfold Js.testVersion, render.
  change (Js.showN (major v) ++ "." ++ Js.showN (minor v) ++ "."
          ++ Js.showN (patch v))
    with (Js.showN (major v)
          ++ String "." (Js.showN (minor v)
                         ++ String "." (Js.showN (patch v)))).
  rewrite digitsPlus_showN by reflexivity. cbn [Js.andThen Js.dot].
  rewrite digitsPlus_showN by reflexivity. cbn [Js.andThen Js.dot].
  rewrite <- (append_empty_r (Js.showN (patch v))).
  rewrite digitsPlus_showN by reflexivity. reflexivity.
Qed.

Lemma render_not_empty (v : SemanticVersion) :
  Js.isEmpty (render v) = false.
Proof.
  unfold render. pose proof (showN_not_empty (major v)) as H.
  destruct (Js.showN (major v)); [discriminate H|reflexivity].
Qed.

(** ** The tag composer *)

Lemma getCurrentVersion_render (w : PreCommit.World) (f : PreCommit.folderName)
    (fields : list (string * Js.value)) (v : SemanticVersion) :
  PreCommit.packageJson w f = Some (PreCommit.Doc (Js.Obj fields)) ->
  Js.lookup "version" fields = Js.Str (render v) ->
  PreCommit.getCurrentVersion w f = Js.Str (render v).
Proof.
  intros Hfile Hversion. unfold PreCommit.getCurrentVersion.
  rewrite Hfile. cbn [Js.getProp]. rewrite Hversion.
  cbn [Js.truthy Js.toString]. rewrite render_not_empty.
  cbn [negb]. now rewrite testVersion_render.
Qed.

Lemma newTagVersion_render (a b : SemanticVersion) :
  PreCommit.newTagVersion (render a) (render b)
  = tagText (minor a) (patch a) (minor b) (patch b).
Proof.
  unfold PreCommit.newTagVersion. now rewrite !components_render.
Qed.

(** C4.  When the metadata files of the working tree carry the versions
    A (back) and B (web), [updateEnvTagVersion] composes and returns the
    tag version [A.minor.A.patch.B.minor.B.patch]. *)
Theorem tag_version_composition (w : PreCommit.World)
    (A B : SemanticVersion) (fieldsA fieldsB : list (string * Js.value)) :
  safe A -> safe B ->
  PreCommit.packageJson w PreCommit.back
  = Some (PreCommit.Doc (Js.Obj fieldsA)) ->
  Js.lookup "version" fieldsA = Js.Str (render A) ->
  PreCommit.packageJson w PreCommit.web
  = Some (PreCommit.Doc (Js.Obj fieldsB)) ->
  Js.lookup "version" fieldsB = Js.Str (render B) ->
  PreCommit.envWritable w = true ->
  PreCommit.newTagVersion (render A) (render B)
  = tagText (minor A) (patch A) (minor B) (patch B)
  /\ fst (PreCommit.updateEnvTagVersion w)
     = Some (tagText (minor A) (patch A) (minor B) (patch B)).
Proof.
  intros _ _ HfileA HA HfileB HB Hw.
  split; [apply newTagVersion_render|].
  unfold PreCommit.updateEnvTagVersion.
  rewrite (getCurrentVersion_render w _ fieldsA A HfileA HA).
  rewrite (getCurrentVersion_render w _ fieldsB B HfileB HB).
  rewrite Hw. cbn [fst]. now rewrite newTagVersion_render.
Qed.

(** A = 2.5.1 and B = 1.0.9 give 5.1.0.9. *)
Lemma tag_version_composition_witness :
  PreCommit.newTagVersion "2.5.1" "1.0.9" = "5.1.0.9"
  /\ fst (PreCommit.updateEnvTagVersion
            (envWorld "2.5.1" "1.0.9" None))
     = Some "5.1.0.9".
Proof.
  apply (tag_version_composition _ (mkVersion 2 5 1) (mkVersion 1 0 9)
           [("name", Js.Str "app"); ("version", Js.Str "2.5.1")]
           [("name", Js.Str "app"); ("version", Js.Str "1.0.9")]);
    try reflexivity; safe_components.
Defined.

(** ** The version reconciler *)

Lemma render_inj (a b : SemanticVersion) : render a = render b -> a = b.
Proof.
  intros H. apply (f_equal Js.components) in H.
  rewrite !components_render in H.
  destruct a, b; simpl in H. now injection H as -> -> ->.
Qed.

Lemma strictNe_render (a b : SemanticVersion) :
  a <> b -> Js.strictNe (Js.Str (render a)) (Js.Str (render b)) = true.
Proof.
  intros H. cbn [Js.strictNe]. apply negb_true_iff, String.eqb_neq.
  intros E. now apply H, render_inj.
Qed.

Lemma truthy_render (v : SemanticVersion) :
  Js.truthy (Js.Str (render v)) = true.
Proof. cbn [Js.truthy]. now rewrite render_not_empty. Qed.

Lemma handleMinorVersionBump_render (w : PreCommit.World)
    (f : PreCommit.folderName) (staged head : SemanticVersion) :
  PreCommit.handleMinorVersionBump w f
    (Js.Str (render staged)) (Js.Str (render head))
  = if (major staged =? major head) && (minor head <? minor staged)
    then match PreCommit.packageJson w f with
         | Some (PreCommit.Doc pkg) =>
             match Js.setProp pkg "version" (Js.Str (resetVersion staged)) with
             | Some pkg' =>
                 PreCommit.writeAndStage w f pkg' (resetVersion staged)
             | None => (None, w)
             end
         | _ => (None, w)
         end
    else (None, w).
Proof.
  unfold PreCommit.handleMinorVersionBump.
  rewrite !components_render. reflexivity.
Qed.

(** C1.  When the staged version has the major of HEAD and a greater
    minor, the loop body resets the patch, or, where the rewrite fails,
    accepts the staged version; it never takes the automatic patch bump,
    whatever [hasFolderChanges] finds and whatever the working tree
    holds.  When the working-tree metadata file can be read, written and
    staged, the body rewrites its version to
    [staged.major.staged.minor.0], stages it and logs the reset. *)
Theorem minor_bump_resets_patch (w : PreCommit.World)
    (f : PreCommit.folderName) (staged head : SemanticVersion) :
  safe staged -> safe head ->
  PreCommit.getStagedVersion w f = Js.Str (render staged) ->
  PreCommit.getHeadVersion w f = Js.Str (render head) ->
  major staged = major head -> minor head < minor staged ->
  (fst (PreCommit.processFolder w f)
   = PreCommit.ResetPatch (resetVersion staged)
   \/ fst (PreCommit.processFolder w f)
      = PreCommit.ManualChange (Js.Str (render staged)))
  /\ (forall v, fst (PreCommit.processFolder w f) <> PreCommit.AutoBump v)
  /\ forall fields,
       PreCommit.packageJson w f = Some (PreCommit.Doc (Js.Obj fields)) ->
       PreCommit.writable w f = true -> PreCommit.gitAdd w f = true ->
       let w' := snd (PreCommit.processFolder w f) in
       let pkg' :=
         PreCommit.Doc
           (Js.Obj (Js.assign "version" (Js.Str (resetVersion staged)) fields))
       in
       fst (PreCommit.processFolder w f)
       = PreCommit.ResetPatch (resetVersion staged)
       /\ PreCommit.packageJson w' f = Some pkg'
       /\ PreCommit.gitShowIndex w' f = Some pkg'
       /\ PreCommit.historyLog w'
          = logged w (PreCommit.nameOf f
                      ++ " version: Reset patch to 0 after minor version bump: "
                      ++ resetVersion staged).
Proof.
  intros _ _ Hs Hh Hmajor Hminor.
  assert (Hcond : (major staged =? major head) && (minor head <? minor staged)
                  = true).
  { apply andb_true_iff. split; [now apply N.eqb_eq|now apply N.ltb_lt]. }
  assert (Hne : staged <> head).
  { intros ->. now apply (N.lt_irrefl (minor head)). }
  assert (Hout : fst (PreCommit.processFolder w f)
                 = PreCommit.ResetPatch (resetVersion staged)
                 \/ fst (PreCommit.processFolder w f)
                    = PreCommit.ManualChange (Js.Str (render staged))).
  { unfold PreCommit.processFolder.
    rewrite Hs, Hh, !truthy_render. cbn [andb].
    rewrite (strictNe_render _ _ Hne).
    rewrite handleMinorVersionBump_render, Hcond.
    destruct (PreCommit.packageJson w f) as [[| |pkg]|]; try now right.
    destruct (Js.setProp pkg "version" _) as [pkg'|]; [|now right].
    unfold PreCommit.writeAndStage.
    destruct (PreCommit.writable w f); [|now right].
    destruct (PreCommit.gitAdd _ f); [now left|now right]. }
  split; [exact Hout|]. split.
  - intros v. destruct Hout as [-> | ->]; discriminate.
  - intros fields Hfile Hwrite Hadd w' pkg'. subst w'.
    unfold PreCommit.processFolder.
    rewrite Hs, Hh, !truthy_render. cbn [andb].
    rewrite handleMinorVersionBump_render, Hcond, Hfile.
    cbn [Js.setProp]. unfold PreCommit.writeAndStage. rewrite Hwrite.
    cbn [PreCommit.writePackageJson PreCommit.gitAdd]. rewrite Hadd.
    cbn [fst snd]. repeat split.
    + cbn. unfold PreCommit.update. now destruct f.
    + cbn. unfold PreCommit.update. now destruct f.
Qed.

Lemma minor_bump_resets_patch_witness :
  fst (PreCommit.processFolder (worldAt "1.2.7" "1.3.5" "1.3.5") PreCommit.web)
  = PreCommit.ResetPatch "1.3.0".
Proof.
  refine (proj1 (proj2 (proj2 (minor_bump_resets_patch
                                 (worldAt "1.2.7" "1.3.5" "1.3.5")
                                 PreCommit.web
                                 (mkVersion 1 3 5) (mkVersion 1 2 7)
                                 _ _ eq_refl eq_refl eq_refl eq_refl))
                   _ eq_refl eq_refl eq_refl));
    safe_components.
Defined.

(** A run of the whole hook: both folders have 1.2.7 in HEAD and 1.3.5
    staged; both get 1.3.0, and the tag version is 3.0.3.0. *)
Example main_resets_both_folders :
  let w' := PreCommit.main (worldAt "1.2.7" "1.3.5" "1.3.5") in
  PreCommit.packageJson w' PreCommit.web = Some (packageOf "1.3.0")
  /\ PreCommit.gitShowIndex w' PreCommit.back = Some (packageOf "1.3.0")
  /\ PreCommit.envFile w' = Some "TAG_VERSION=3.0.3.0".
Proof. cbv zeta. repeat split. Qed.

(** C3.  When the staged version differs from the version of HEAD and is
    not a minor bump of it, the loop body accepts it as a manual change:
    no metadata file is written, the index and the environment file are
    as before, and the history log gets one line. *)
Theorem manual_change_accepted (w : PreCommit.World)
    (f : PreCommit.folderName) (staged head : SemanticVersion) :
  safe staged -> safe head ->
  PreCommit.getStagedVersion w f = Js.Str (render staged) ->
  PreCommit.getHeadVersion w f = Js.Str (render head) ->
  staged <> head ->
  ~ (major staged = major head /\ minor head < minor staged) ->
  let w' := snd (PreCommit.processFolder w f) in
  fst (PreCommit.processFolder w f)
  = PreCommit.ManualChange (Js.Str (render staged))
  /\ PreCommit.packageJson w' = PreCommit.packageJson w
  /\ PreCommit.gitShowIndex w' = PreCommit.gitShowIndex w
  /\ PreCommit.envFile w' = PreCommit.envFile w
  /\ PreCommit.historyLog w'
     = logged w (PreCommit.nameOf f ++ " version manually changed to "
                 ++ render staged).
Proof.
  intros _ _ Hs Hh Hne Hminor w'. subst w'.
  assert (Hcond : (major staged =? major head) && (minor head <? minor staged)
                  = false).
  { apply not_true_is_false. intros H. apply andb_true_iff in H as [H1 H2].
    apply Hminor. split; [now apply N.eqb_eq|now apply N.ltb_lt]. }
  unfold PreCommit.processFolder.
  rewrite Hs, Hh, !truthy_render. cbn [andb].
  rewrite handleMinorVersionBump_render, Hcond.
  rewrite (strictNe_render _ _ Hne). cbn [fst snd].
  repeat split.
Qed.

Lemma manual_change_accepted_witness :
  fst (PreCommit.processFolder (worldAt "1.2.7" "2.0.0" "2.0.0") PreCommit.web)
  = PreCommit.ManualChange (Js.Str "2.0.0").
Proof.
  refine (proj1 (manual_change_accepted
                   (worldAt "1.2.7" "2.0.0" "2.0.0") PreCommit.web
                   (mkVersion 2 0 0) (mkVersion 1 2 7)
                   _ _ eq_refl eq_refl _ _)).
  - safe_components.
  - safe_components.
  - discriminate.
  - intros [H _]. discriminate H.
Defined.

(** C2, as the claim has it, fails.  The metadata file is neither in
    HEAD nor in the index, so the version of HEAD is the default 0.0.0 and
    the staged version is absent; a source file is staged; the working
    tree has the metadata file with 1.0.0.  The automatic bump writes
    1.0.1, not 0.0.1. *)
Lemma auto_bump_from_head_counterexample :
  let w := untrackedWorld "1.0.0" in
  let head := mkVersion 0 0 0 in
  PreCommit.getHeadVersion w PreCommit.web = Js.Str (render head)
  /\ stagedIs w PreCommit.web head
  /\ PreCommit.hasFolderChanges w PreCommit.web = true
  /\ fst (PreCommit.processFolder w PreCommit.web)
     = PreCommit.AutoBump (Some "1.0.1")
  /\ fst (PreCommit.processFolder w PreCommit.web)
     <> PreCommit.AutoBump (Some (render (bumpedVersion head))).
Proof.
  cbv zeta. split; [reflexivity|]. split; [right; reflexivity|].
  split; [reflexivity|]. split; [reflexivity|].
  vm_compute. discriminate.
Qed.

(** The same with the version 1.0.0 in HEAD and in the index and 1.0.5
    in the working tree: the automatic bump writes 1.0.6. *)
Example auto_bump_reads_working_tree :
  fst (PreCommit.processFolder (worldAt "1.0.0" "1.0.0" "1.0.5") PreCommit.web)
  = PreCommit.AutoBump (Some "1.0.6").
Proof. reflexivity. Qed.

(** C2, amended.  When the staged version is absent or is the version of
    HEAD, a file other than the metadata file is staged, and the
    working-tree metadata file can be read, written and staged, the loop
    body bumps the version of the working-tree file: the major and the
    minor are kept, the patch is one more; the file is rewritten and
    staged and the bump is logged.  The new version is that of HEAD with
    the patch plus one when the working tree carries the version of
    HEAD. *)
Theorem auto_patch_bump (w : PreCommit.World) (f : PreCommit.folderName)
    (head current : SemanticVersion) (fields : list (string * Js.value)) :
  safe head -> safe current ->
  PreCommit.getHeadVersion w f = Js.Str (render head) ->
  stagedIs w f head ->
  PreCommit.hasFolderChanges w f = true ->
  PreCommit.packageJson w f = Some (PreCommit.Doc (Js.Obj fields)) ->
  Js.lookup "version" fields = Js.Str (render current) ->
  PreCommit.writable w f = true -> PreCommit.gitAdd w f = true ->
  let w' := snd (PreCommit.processFolder w f) in
  let newVersion := render (bumpedVersion current) in
  let pkg' :=
    PreCommit.Doc (Js.Obj (Js.assign "version" (Js.Str newVersion) fields)) in
  fst (PreCommit.processFolder w f) = PreCommit.AutoBump (Some newVersion)
  /\ PreCommit.packageJson w' f = Some pkg'
  /\ PreCommit.gitShowIndex w' f = Some pkg'
  /\ PreCommit.historyLog w'
     = logged w (PreCommit.nameOf f ++ " version auto-bumped to " ++ newVersion
                 ++ " (" ++ PreCommit.nameOf f ++ " files changed)")
  /\ (current = head -> newVersion = render (bumpedVersion head)).
Proof.
  intros _ _ Hh Hs Hchanged Hfile Hversion Hwrite Hadd w' newVersion pkg'.
  subst w' pkg' newVersion.
  assert (Hbump : PreCommit.bumpPatchVersion w f
                  = PreCommit.writeAndStage w f
                      (Js.Obj (Js.assign "version"
                                 (Js.Str (render (bumpedVersion current)))
                                 fields))
                      (render (bumpedVersion current))).
  { unfold PreCommit.bumpPatchVersion. rewrite Hfile. cbn [Js.getProp].
    rewrite Hversion, components_render. reflexivity. }
  assert (Hbody : PreCommit.processFolder w f
                  = match PreCommit.bumpPatchVersion w f with
                    | (Some newVersion, w2) =>
                        (PreCommit.AutoBump (Some newVersion),
                         PreCommit.log w2
                           (PreCommit.nameOf f ++ " version auto-bumped to "
                            ++ newVersion ++ " (" ++ PreCommit.nameOf f
                            ++ " files changed)"))
                    | (None, w2) => (PreCommit.AutoBump None, w2)
                    end).
  { unfold PreCommit.processFolder. rewrite Hh, Hchanged.
    destruct Hs as [Hs|Hs]; rewrite Hs.
    - rewrite !truthy_render. cbn [andb].
      rewrite handleMinorVersionBump_render, N.ltb_irrefl, andb_false_r.
      cbn [Js.strictNe]. now rewrite String.eqb_refl.
    - reflexivity. }
  rewrite Hbody, Hbump. unfold PreCommit.writeAndStage. rewrite Hwrite.
  cbn [PreCommit.writePackageJson PreCommit.gitAdd]. rewrite Hadd.
  cbn [fst snd]. repeat split.
  - cbn. unfold PreCommit.update. now destruct f.
  - cbn. unfold PreCommit.update. now destruct f.
  - now intros ->.
Qed.

Lemma auto_patch_bump_witness :
  fst (PreCommit.processFolder (worldAt "1.0.0" "1.0.0" "1.0.5") PreCommit.web)
  = PreCommit.AutoBump (Some "1.0.6").
Proof.
  refine (proj1 (auto_patch_bump
                   (worldAt "1.0.0" "1.0.0" "1.0.5") PreCommit.web
                   (mkVersion 1 0 0) (mkVersion 1 0 5)
                   [("name", Js.Str "app"); ("version", Js.Str "1.0.5")]
                   _ _ eq_refl (or_introl eq_refl) eq_refl eq_refl eq_refl
                   eq_refl eq_refl));
    safe_components.
Defined.

(** ** The environment file *)

Lemma prefix_slice (k s : string) :
  prefix k s = true -> s = k ++ Js.slice (String.length k) s.
Proof.
  revert s. induction k as [|x k IH]; intros s H; simpl.
  - now destruct s.
  - destruct s as [|y s]; simpl in H; [discriminate|].
    destruct (ascii_dec x y) as [->|]; [|discriminate].
    now rewrite <- (IH s H).
Qed.

Lemma prefix_append (k a b : string) :
  prefix k a = true -> prefix k (a ++ b) = true.
Proof.
  revert a. induction k as [|x k IH]; intros a H; simpl.
  - now destruct (a ++ b).
  - destruct a as [|y a]; simpl in H; [discriminate|].
    simpl. destruct (ascii_dec x y); [now apply IH|discriminate].
Qed.

Lemma prefix_self (k rest : string) : prefix k (k ++ rest) = true.
Proof.
  induction k as [|x k IH]; simpl; [now destruct rest|].
  destruct (ascii_dec x x) as [_|H]; [exact IH|now elim H].
Qed.

Lemma includes_occurrence (p key rest : string) :
  Js.includes (p ++ key ++ rest) key = true.
Proof.
  induction p as [|c p IH]; simpl append.
  - destruct (key ++ rest) eqn:E; cbn [Js.includes]; rewrite <- E;
      now rewrite prefix_self.
  - cbn [Js.includes]. rewrite IH. apply orb_true_r.
Qed.

(** The leftmost occurrence of a key that starts a line, and what
    [replace] makes of it. *)
Lemma replaceKeyLine_occurrence (key s : string) (lineStart : bool) :
  Js.isEmpty key = false ->
  firstKeyAtLineStart key lineStart s = true ->
  exists p rest,
    s = p ++ key ++ rest
    /\ Js.includes p key = false
    /\ ((p = EmptyString /\ lineStart = true)
        \/ exists p0, p = p0 ++ String LF EmptyString)
    /\ forall repl,
         Js.replaceKeyLine key repl s = p ++ repl ++ Js.afterDotStar rest.
Proof.
  intros Hkey. revert lineStart.
  induction s as [|c s IH]; intros lineStart H.
  - destruct key; [discriminate Hkey|discriminate H].
  - cbn [firstKeyAtLineStart] in H.
    destruct (prefix key (String c s)) eqn:Hp.
    + exists EmptyString, (Js.slice (String.length key) (String c s)).
      split; [now apply prefix_slice|]. split.
      * destruct key; [discriminate Hkey|reflexivity].
      * split; [now left|].
        intros repl. cbn [Js.replaceKeyLine]. now rewrite Hp.
    + destruct (IH _ H) as (p & rest & Hs & Hfirst & Hline & Hrepl).
      exists (String c p), rest. split; [simpl; now rewrite <- Hs|]. split.
      * cbn [Js.includes]. rewrite Hfirst, orb_false_r.
        destruct (prefix key (String c p)) eqn:Hq; [|reflexivity].
        pose proof (prefix_append key (String c p) (key ++ rest) Hq) as Hq'.
        change (String c p ++ key ++ rest) with (String c (p ++ key ++ rest))
          in Hq'.
        rewrite <- Hs, Hp in Hq'. discriminate Hq'.
      * split.
        -- right. destruct Hline as [[-> Hc]|(p0 & ->)].
           ++ exists EmptyString. apply Ascii.eqb_eq in Hc. now subst c.
           ++ now exists (String c p0).
        -- intros repl. cbn [Js.replaceKeyLine]. rewrite Hp.
           now rewrite (Hrepl repl).
Qed.

(** A text is the run that [.*] matches, then what is left. *)
Lemma afterDotStar_run (s : string) :
  exists old,
    s = old ++ Js.afterDotStar s
    /\ every (fun c => negb (Js.isLineTerminator c)) old = true.
Proof.
  induction s as [|c s (old & Hs & Hold)].
  - now exists EmptyString.
  - cbn [Js.afterDotStar]. destruct (Js.isLineTerminator c) eqn:Hc.
    + now exists EmptyString.
    + exists (String c old). simpl. rewrite Hc, Hold. now rewrite <- Hs.
Qed.

Lemma afterDotStar_head (s : string) :
  Js.afterDotStar s = EmptyString
  \/ exists c t, Js.afterDotStar s = String c t
                 /\ Js.isLineTerminator c = true.
Proof.
  induction s as [|c s IH]; [now left|].
  cbn [Js.afterDotStar]. destruct (Js.isLineTerminator c) eqn:Hc; [|exact IH].
  right. now exists c, s.
Qed.

Lemma lines_cons (c : ascii) (s : string) :
  lines (String c s)
  = if Ascii.eqb c LF then EmptyString :: lines s
    else (String c (hd EmptyString (lines s))) :: tl (lines s).
Proof.
  unfold lines. cbn [Js.split]. destruct (Ascii.eqb c LF); [reflexivity|].
  pose proof (split_not_nil LF s) as H.
  now destruct (Js.split LF s).
Qed.

Lemma lines_run (m b : string) :
  lacks LF m = true ->
  lines (m ++ b) = (m ++ hd EmptyString (lines b)) :: tl (lines b).
Proof.
  intros Hm. induction m as [|c m IH]; simpl.
  - pose proof (split_not_nil LF b) as H. unfold lines.
    now destruct (Js.split LF b).
  - simpl in Hm. apply andb_true_iff in Hm as [Hc Hm].
    apply negb_true_iff in Hc.
    rewrite lines_cons, Hc, (IH Hm). reflexivity.
Qed.

(** The lines of a concatenation: the last line of the first text and the
    first line of the second are joined. *)
Lemma lines_append (a s : string) :
  lines (a ++ s)
  = (removelast (lines a)
     ++ (last (lines a) EmptyString ++ hd EmptyString (lines s))%string
        :: tl (lines s))%list.
Proof.
  induction a as [|c a IH].
  - simpl. pose proof (split_not_nil LF s) as H. unfold lines.
    now destruct (Js.split LF s).
  - change (String c a ++ s) with (String c (a ++ s)).
    rewrite !lines_cons, IH.
    pose proof (split_not_nil LF a) as Ha. fold (lines a) in Ha.
    destruct (Ascii.eqb c LF).
    + destruct (lines a) as [|h t]; [now elim Ha|reflexivity].
    + destruct (lines a) as [|h [|h' t]]; [now elim Ha|reflexivity|reflexivity].
Qed.

Lemma lines_ending (c0 : string) :
  last (lines (c0 ++ String LF EmptyString)) EmptyString = EmptyString.
Proof.
  rewrite lines_append. cbn [lines Js.split hd tl].
  change (Ascii.eqb LF LF) with true. cbn [hd tl].
  set (joined := (last (lines c0) EmptyString ++ EmptyString)%string).
  change [joined; EmptyString] with ([joined] ++ [EmptyString])%list.
  rewrite app_assoc. apply last_last.
Qed.

Lemma first_line_prefix (s : string) :
  exists r, s = hd EmptyString (lines s) ++ r.
Proof.
  induction s as [|c s (r & Hr)]; [now exists EmptyString|].
  rewrite lines_cons. destruct (Ascii.eqb c LF).
  - now exists (String c s).
  - exists r. cbn [hd]. simpl. now rewrite <- Hr.
Qed.

Lemma prefix_empty (k : string) :
  prefix k EmptyString = true -> k = EmptyString.
Proof. now destruct k. Qed.

(** A text without the key has no line with the key. *)
Lemma includes_lines (s k : string) :
  Js.includes s k = false ->
  forallb (fun l => negb (Js.includes l k)) (lines s) = true.
Proof.
  induction s as [|c s IH]; intros H.
  - cbn [lines Js.split forallb]. now rewrite H.
  - cbn [Js.includes] in H. apply orb_false_iff in H as [Hp Hs].
    specialize (IH Hs). rewrite lines_cons.
    pose proof (split_not_nil LF s) as Hnil. fold (lines s) in Hnil.
    destruct (Ascii.eqb c LF).
    + cbn [forallb]. rewrite IH, andb_true_r.
      cbn [Js.includes]. rewrite orb_false_r. apply negb_true_iff.
      destruct (prefix k EmptyString) eqn:E; [|reflexivity].
      apply prefix_empty in E. subst k. discriminate Hp.
    + destruct (first_line_prefix s) as (r & Hr).
      destruct (lines s) as [|h t]; [now elim Hnil|].
      cbn [hd tl forallb] in *. apply andb_true_iff in IH as [Hh Ht].
      rewrite Ht, andb_true_r. apply negb_true_iff.
      cbn [Js.includes]. apply negb_true_iff in Hh. rewrite Hh, orb_false_r.
      destruct (prefix k (String c h)) eqn:E; [|reflexivity].
      pose proof (prefix_append k (String c h) r E) as E'.
      change (String c h ++ r) with (String c (h ++ r)) in E'.
      rewrite <- Hr, Hp in E'. discriminate E'.
Qed.

Lemma forallb_removelast {A} (p : A -> bool) (l : list A) :
  forallb p l = true -> forallb p (removelast l) = true.
Proof.
  induction l as [|x [|y l] IH]; intros H; try reflexivity.
  cbn [forallb] in H. apply andb_true_iff in H as [Hx Hl].
  change (removelast (x :: y :: l)) with (x :: removelast (y :: l)).
  cbn [forallb]. now rewrite Hx, (IH Hl).
Qed.

Lemma lineTerminator_cases (c : ascii) :
  Js.isLineTerminator c = true -> c = LF \/ c = CR.
Proof.
  destruct c as [[] [] [] [] [] [] [] []]; vm_compute; intros H;
    try discriminate H; [now right|now left].
Qed.

Lemma run_lacks_LF (old : string) :
  every (fun c => negb (Js.isLineTerminator c)) old = true ->
  lacks LF old = true.
Proof.
  rewrite lacks_every. apply every_weaken. intros c Hc.
  apply negb_true_iff. apply negb_true_iff in Hc.
  destruct (Ascii.eqb c LF) eqn:E; [|reflexivity].
  apply Ascii.eqb_eq in E. subst c. discriminate Hc.
Qed.

Lemma lacks_append (c : ascii) (a b : string) :
  lacks c (a ++ b) = lacks c a && lacks c b.
Proof. rewrite !lacks_every. apply every_append. Qed.

(** The first line of what follows the run of [.*]. *)
Lemma after_run_first_line (post : string) :
  (post = EmptyString
   \/ exists c t, post = String c t /\ Js.isLineTerminator c = true) ->
  hd EmptyString (lines post) = EmptyString
  \/ exists t, hd EmptyString (lines post) = String CR t.
Proof.
  intros [->|(c & t & -> & Hc)]; [now left|].
  rewrite lines_cons. destruct (lineTerminator_cases c Hc) as [->| ->].
  - now left.
  - right. now eexists.
Qed.

(** The lines of the environment file before and after the update of the
    line with the key. *)
Lemma updateEnvContent_lines (prior tag : string) :
  lacks LF tag = true ->
  exists text,
    PreCommit.updateEnvContent prior tag = Js.trim text
    /\ (firstKeyAtLineStart PreCommit.TAG_KEY true prior = true ->
        replacesTagLine prior text tag)
    /\ (Js.includes prior PreCommit.TAG_KEY = false ->
        (prior = EmptyString
         \/ exists c0, prior = c0 ++ String LF EmptyString) ->
        appendsTagLine prior text tag).
Proof.
  intros Htag. unfold PreCommit.updateEnvContent.
  destruct (Js.includes prior PreCommit.TAG_KEY) eqn:Hinc.
  - eexists. split; [reflexivity|]. split; [intros Hstart|discriminate].
    destruct (replaceKeyLine_occurrence PreCommit.TAG_KEY prior true
                eq_refl Hstart)
      as (p & rest & Hprior & Hfirst & Hline & Hrepl).
    rewrite Hrepl. clear Hrepl.
    destruct (afterDotStar_run rest) as (old & Hrest & Hold).
    pose proof (after_run_first_line _ (afterDotStar_head rest)) as Htail.
    set (post := Js.afterDotStar rest) in *.
    pose proof (includes_lines p _ Hfirst) as Hlines.
    assert (Hlast : last (lines p) EmptyString = EmptyString).
    { destruct Hline as [[-> _]|(p0 & ->)]; [reflexivity|apply lines_ending]. }
    exists (removelast (lines p)), (tl (lines post)), old,
      (hd EmptyString (lines post)).
    repeat split.
    + rewrite Hprior, Hrest, lines_append, Hlast.
      rewrite <- !append_assoc, lines_run, !append_assoc; [reflexivity|].
      rewrite lacks_append, (run_lacks_LF old Hold). reflexivity.
    + rewrite lines_append, Hlast.
      rewrite <- !append_assoc, lines_run, !append_assoc; [reflexivity|].
      rewrite lacks_append, Htag. reflexivity.
    + now apply forallb_removelast.
    + exact Hold.
    + exact Htail.
  - eexists. split; [reflexivity|]. split; [|intros _ Hend].
    { intros Hstart.
      destruct (replaceKeyLine_occurrence PreCommit.TAG_KEY prior true
                  eq_refl Hstart) as (p & rest & Hprior & _).
      rewrite Hprior, includes_occurrence in Hinc. discriminate Hinc. }
    pose proof (split_not_nil LF prior) as Hnil. fold (lines prior) in Hnil.
    assert (Hlast : last (lines prior) EmptyString = EmptyString).
    { destruct Hend as [->|(c0 & ->)]; [reflexivity|apply lines_ending]. }
    exists (removelast (lines prior)). split.
    + pose proof (app_removelast_last EmptyString Hnil) as E.
      now rewrite Hlast in E.
    + assert (E : lines (PreCommit.TAG_KEY ++ tag ++ String "010" EmptyString)
                  = [(PreCommit.TAG_KEY ++ tag)%string; EmptyString]).
      { rewrite <- append_assoc.
        apply (split_piece LF (PreCommit.TAG_KEY ++ tag) EmptyString).
        rewrite lacks_append, Htag. reflexivity. }
      rewrite lines_append, Hlast, E. reflexivity.
Qed.

Lemma show_lacks_LF (x : Js.element) : lacks LF (Js.show x) = true.
Proof.
  destruct x as [[|n]|]; try reflexivity.
  cbn [Js.show]. rewrite lacks_every.
  apply (every_weaken Js.isDigit); [|apply showN_digits].
  intros c Hc. destruct (digit_cases c Hc) as (_ & _ & -> & _). reflexivity.
Qed.

Lemma newTagVersion_lacks_LF (backVersion webVersion : string) :
  lacks LF (PreCommit.newTagVersion backVersion webVersion) = true.
Proof.
  unfold PreCommit.newTagVersion.
  rewrite !lacks_append, !show_lacks_LF. reflexivity.
Qed.

(** What a successful [updateEnvTagVersion] returns and writes. *)
Lemma updateEnvTagVersion_written (w : PreCommit.World) (tag : string) :
  fst (PreCommit.updateEnvTagVersion w) = Some tag ->
  lacks LF tag = true
  /\ PreCommit.envFile (snd (PreCommit.updateEnvTagVersion w))
     = Some (PreCommit.updateEnvContent
               (PreCommit.contentOf (PreCommit.envFile w)) tag).
Proof.
  unfold PreCommit.updateEnvTagVersion.
  destruct (PreCommit.getCurrentVersion w PreCommit.back);
    try discriminate;
    destruct (PreCommit.getCurrentVersion w PreCommit.web);
    try discriminate.
  destruct (PreCommit.envWritable w); [|discriminate].
  cbn [fst snd]. intros [= <-].
  split; [apply newTagVersion_lacks_LF|reflexivity].
Qed.

(** The slip of the update without a key: the new line is glued to a last
    line that no line feed ends. *)
Example env_append_glues_last_line :
  PreCommit.updateEnvContent "A=1" "5.1.0.9" = "A=1TAG_VERSION=5.1.0.9".
Proof. reflexivity. Qed.

(** The slip of the update with a key: the expression is not anchored,
    so the key inside another key is the one rewritten. *)
Example env_replace_hits_other_key :
  PreCommit.updateEnvContent
    ("MY_TAG_VERSION=3" ++ String LF "TAG_VERSION=1") "5.1.0.9"
  = "MY_TAG_VERSION=5.1.0.9" ++ String LF "TAG_VERSION=1".
Proof. reflexivity. Qed.

(** C5, as the claim has it, fails: the first line of the prior content,
    which does not hold the key, starts with a space; the text is trimmed
    before it is written, so that line is not a line of the file any
    more. *)
Lemma env_update_counterexample :
  let prior :=
    " A=1" ++ String LF ("TAG_VERSION=0.0.0.0" ++ String LF EmptyString) in
  let w := envWorld "2.5.1" "1.0.9" (Some prior) in
  let w' := snd (PreCommit.updateEnvTagVersion w) in
  fst (PreCommit.updateEnvTagVersion w) = Some "5.1.0.9"
  /\ PreCommit.envFile w' = Some ("A=1" ++ String LF "TAG_VERSION=5.1.0.9")
  /\ ~ keepsOtherLines prior (PreCommit.contentOf (PreCommit.envFile w')).
Proof.
  cbv zeta. split; [reflexivity|]. split; [reflexivity|].
  intros H. specialize (H " A=1" (or_introl eq_refl) eq_refl eq_refl).
  vm_compute in H. destruct H as [H|[H|[]]]; discriminate H.
Qed.

(** C5, amended.  [updateEnvTagVersion] writes the trimmed form of a
    text.  When the first [TAG_VERSION=] of the prior content starts a
    line, the text has the lines of the prior content, except that in
    that line what follows the key up to the end of the line, or up to a
    carriage return, is replaced by the new tag version.  When the prior
    content has no [TAG_VERSION=] and is empty or ends with a line feed,
    the text has the lines of the prior content and a new line with the
    key and the tag version. *)
Theorem env_update_lines (w : PreCommit.World) (tag : string) :
  fst (PreCommit.updateEnvTagVersion w) = Some tag ->
  envUpdated (PreCommit.contentOf (PreCommit.envFile w))
    (PreCommit.envFile (snd (PreCommit.updateEnvTagVersion w))) tag.
Proof.
  intros H. destruct (updateEnvTagVersion_written w tag H) as [Htag ->].
  destruct (updateEnvContent_lines
              (PreCommit.contentOf (PreCommit.envFile w)) tag Htag)
    as (text & Htext & Hreplace & Happend).
  exists text. rewrite Htext. now repeat split.
Qed.

Lemma env_update_lines_witness :
  let prior :=
    "A=1" ++ String LF ("TAG_VERSION=0.0.0.0" ++ String LF "B=2") in
  envUpdated prior
    (PreCommit.envFile
       (snd (PreCommit.updateEnvTagVersion
               (envWorld "2.5.1" "1.0.9" (Some prior)))))
    "5.1.0.9".
Proof.
  exact (env_update_lines
           (envWorld "2.5.1" "1.0.9"
              (Some ("A=1" ++ String LF
                       ("TAG_VERSION=0.0.0.0" ++ String LF "B=2"))))
           "5.1.0.9" eq_refl).
Defined.

(** ** The version readers *)

(** [getCurrentVersion] returns a value whose text is a version. *)
Lemma getCurrentVersion_wellformed (w : PreCommit.World)
    (f : PreCommit.folderName) :
  exists text,
    Js.toString (PreCommit.getCurrentVersion w f) = Some text
    /\ Js.testVersion text = true.
Proof.
  unfold PreCommit.getCurrentVersion.
  assert (Hzero : exists text,
             Js.toString PreCommit.zeroVersion = Some text
             /\ Js.testVersion text = true)
    by (now exists "0.0.0").
  destruct (PreCommit.packageJson w f) as [[| |pkg]|]; try exact Hzero.
  destruct (Js.getProp pkg "version") as [version|]; [|exact Hzero].
  destruct (Js.truthy version); [|exact Hzero]. cbn [negb].
  destruct (Js.toString version) as [text|] eqn:Htext; [|exact Hzero].
  destruct (Js.testVersion text) eqn:Htest; [|exact Hzero].
  now exists text.
Qed.

(** [getHeadVersion] returns the default, or the [version] field of the
    metadata file of HEAD as it is. *)
Lemma getHeadVersion_cases (w : PreCommit.World) (f : PreCommit.folderName) :
  PreCommit.getHeadVersion w f = PreCommit.zeroVersion
  \/ exists pkg version,
       PreCommit.gitShowHead w f = Some (PreCommit.Doc pkg)
       /\ Js.getProp pkg "version" = Some version
       /\ Js.truthy version = true
       /\ PreCommit.getHeadVersion w f = version.
Proof.
  unfold PreCommit.getHeadVersion.
  destruct (PreCommit.gitRevParseHead w); [|now left]. cbn [negb].
  destruct (PreCommit.gitLsTree w f) as [out|]; [|now left].
  destruct (Js.isEmpty (Js.trim out)); [now left|].
  destruct (PreCommit.gitShowHead w f) as [[| |pkg]|]; try now left.
  destruct (Js.getProp pkg "version") as [version|] eqn:Hv; [|now left].
  destruct (Js.truthy version) eqn:Ht; [|now left]. cbn [negb].
  destruct (Js.toString version); [|now left].
  right. now exists pkg, version.
Qed.

(** The defaults of [getHeadVersion]: no HEAD commit, no metadata file in
    HEAD, a content that cannot be read or parsed, no [version] field. *)
Lemma getHeadVersion_defaults (w : PreCommit.World) (f : PreCommit.folderName) :
  (PreCommit.gitRevParseHead w = false
   \/ PreCommit.gitLsTree w f = None
   \/ PreCommit.gitLsTree w f = Some EmptyString
   \/ PreCommit.gitShowHead w f = None
   \/ PreCommit.gitShowHead w f = Some PreCommit.Blank
   \/ PreCommit.gitShowHead w f = Some PreCommit.Malformed
   \/ exists fields,
        PreCommit.gitShowHead w f = Some (PreCommit.Doc (Js.Obj fields))
        /\ Js.hasKey "version" fields = false) ->
  PreCommit.getHeadVersion w f = PreCommit.zeroVersion.
Proof.
  assert (Hmiss : forall fields,
             Js.hasKey "version" fields = false ->
             Js.lookup "version" fields = Js.Undefined).
  { induction fields as [|[k v] fields IH]; [reflexivity|].
    cbn [Js.hasKey Js.lookup]. intros H.
    apply orb_false_iff in H as [Hk Hrest]. rewrite Hk. now apply IH. }
  unfold PreCommit.getHeadVersion.
  intros [H|[H|[H|[H|[H|[H|(fields & H & Hkey)]]]]]]; rewrite ?H;
    try reflexivity;
    destruct (PreCommit.gitRevParseHead w); try reflexivity; cbn [negb];
    destruct (PreCommit.gitLsTree w f) as [out|]; try reflexivity;
    destruct (Js.isEmpty (Js.trim out)); try reflexivity;
    rewrite ?H; try reflexivity.
  cbn [Js.getProp]. now rewrite (Hmiss fields Hkey).
Qed.

(** [getHeadVersion] does not check the form of the version. *)
Lemma getHeadVersion_unchecked (w : PreCommit.World)
    (f : PreCommit.folderName) (out version : string)
    (fields : list (string * Js.value)) :
  PreCommit.gitRevParseHead w = true ->
  PreCommit.gitLsTree w f = Some out -> Js.isEmpty (Js.trim out) = false ->
  PreCommit.gitShowHead w f = Some (PreCommit.Doc (Js.Obj fields)) ->
  Js.lookup "version" fields = Js.Str version ->
  Js.isEmpty version = false ->
  PreCommit.getHeadVersion w f = Js.Str version.
Proof.
  intros H1 H2 H3 H4 H5 H6. unfold PreCommit.getHeadVersion.
  rewrite H1, H2, H3, H4. cbn [negb Js.getProp]. rewrite H5.
  cbn [Js.truthy Js.toString]. now rewrite H6.
Qed.

(** C8, at the input where the code departs from it.  The metadata file
    of HEAD, of the index and of the working tree has the version [abc]:
    [getHeadVersion] and [getStagedVersion] return [abc], which is not of
    the form of a version, where [getCurrentVersion] returns the default
    0.0.0. *)
Theorem head_reader_keeps_malformed_version :
  let w := worldAt "abc" "abc" "abc" in
  PreCommit.getHeadVersion w PreCommit.web = Js.Str "abc"
  /\ PreCommit.getStagedVersion w PreCommit.web = Js.Str "abc"
  /\ Js.testVersion "abc" = false
  /\ PreCommit.getCurrentVersion w PreCommit.web = Js.Str "0.0.0".
Proof. cbv zeta. repeat split. Qed.

(** ** The tag publisher of [build/deploy.js] *)

Lemma append_cancel_l (a x y : string) : a ++ x = a ++ y -> x = y.
Proof.
  induction a as [|c a IH]; simpl; intros H; [exact H|].
  injection H as H. now apply IH.
Qed.

(** Two counters give two names. *)
Lemma currentTag_inj (tagName : string) (a b : N) :
  Deploy.currentTag tagName a = Deploy.currentTag tagName b -> a = b.
Proof.
  unfold Deploy.currentTag.
  destruct (N.eqb_spec a 0) as [->|Ha]; destruct (N.eqb_spec b 0) as [->|Hb];
    intros H; try reflexivity.
  - rewrite <- (append_empty_r tagName) in H at 1.
    apply append_cancel_l in H. discriminate H.
  - rewrite <- (append_empty_r tagName) in H at 2.
    apply append_cancel_l in H. discriminate H.
  - apply append_cancel_l in H. injection H as H. now apply showN_inj.
Qed.

Lemma counters_lower (start x : N) (n : nat) :
  In x (counters start n) -> start <= x.
Proof.
  revert start. induction n as [|n IH]; intros start; [now intros []|].
  intros [<-|H]; [apply N.le_refl|].
  apply IH in H. lia.
Qed.

Lemma counters_NoDup (start : N) (n : nat) : NoDup (counters start n).
Proof.
  revert start. induction n as [|n IH]; intros start; constructor.
  - intros H. apply counters_lower in H. lia.
  - apply IH.
Qed.

Lemma candidates_NoDup (tagName : string) (start : N) (n : nat) :
  NoDup (map (Deploy.currentTag tagName) (counters start n)).
Proof.
  apply Injective_map_NoDup; [|apply counters_NoDup].
  intros a b. apply currentTag_inj.
Qed.

Lemma retry_wellShaped {G : Type} (tagName : string) (remaining : nat)
    (counter : N) (run : option string * list string * G) :
  wellShaped tagName remaining (counter + 1) run ->
  wellShaped tagName (S remaining) counter
    (outcomeOf run, Deploy.currentTag tagName counter :: triedOf run,
     stateOf run).
Proof.
  destruct run as [[published tried] g]. unfold wellShaped.
  cbn [outcomeOf triedOf stateOf fst snd].
  intros (Htried & Hlen & Hend). repeat split.
  - cbn [List.length counters map]. now rewrite <- Htried.
  - cbn [List.length]. lia.
  - destruct published as [tag|].
    + destruct Hend as (n & Hn & Htag). exists (S n). cbn [List.length].
      split; [now rewrite Hn|]. rewrite Htag. f_equal. lia.
    + cbn [List.length]. now rewrite Hend.
Qed.

(** Every run of the loop is well shaped. *)
Lemma attempts_wellShaped {G : Type} (git : Git.Ops G) (tagName : string)
    (remaining : nat) (counter : N) (g : G) :
  wellShaped tagName remaining counter
    (Deploy.attempts git remaining counter tagName g).
Proof.
  revert counter g. induction remaining as [|remaining IH]; intros counter g.
  - cbn. unfold wellShaped. cbn. repeat split. lia.
  - assert (Hretry : forall g',
               wellShaped tagName (S remaining) counter
                 (let '(published, tried, g'') :=
                    Deploy.attempts git remaining (counter + 1) tagName g' in
                  (published, Deploy.currentTag tagName counter :: tried, g''))).
    { intros g'. pose proof (retry_wellShaped _ _ _ _ (IH (counter + 1) g')) as H.
      now destruct (Deploy.attempts git remaining (counter + 1) tagName g')
        as [[published tried] g'']. }
    cbn [Deploy.attempts].
    destruct (Deploy.tagExists git g _); [apply Hretry|].
    destruct (Git.tagCreate git g _) as [[|] g1]; [|apply Hretry].
    destruct (Git.pushTag git g1 _) as [[|] g2]; [|apply Hretry].
    unfold wellShaped. cbn. repeat split; [lia|].
    exists 0%nat. split; [reflexivity|]. f_equal. lia.
Qed.

(** After [k] collisions, a candidate that is free, created and pushed is
    the one published. *)
Lemma attempts_first_free {G : Type} (git : Git.Ops G) (tagName : string)
    (g g1 g2 : G) (k remaining : nat) (counter : N) :
  (k < remaining)%nat ->
  (forall j, (j < k)%nat ->
     Deploy.tagExists git g (Deploy.currentTag tagName (counter + N.of_nat j))
     = true) ->
  Deploy.tagExists git g (Deploy.currentTag tagName (counter + N.of_nat k))
  = false ->
  Git.tagCreate git g (Deploy.currentTag tagName (counter + N.of_nat k))
  = (true, g1) ->
  Git.pushTag git g1 (Deploy.currentTag tagName (counter + N.of_nat k))
  = (true, g2) ->
  Deploy.attempts git remaining counter tagName g
  = (Some (Deploy.currentTag tagName (counter + N.of_nat k)),
     map (Deploy.currentTag tagName) (counters counter (S k)), g2).
Proof.
  revert remaining counter.
  induction k as [|k IH]; intros remaining counter Hk Hbusy Hfree Hcreate Hpush.
  - destruct remaining as [|remaining]; [lia|].
    rewrite N.add_0_r in *. cbn [Deploy.attempts].
    now rewrite Hfree, Hcreate, Hpush.
  - destruct remaining as [|remaining]; [lia|].
    cbn [Deploy.attempts].
    pose proof (Hbusy 0%nat ltac:(lia)) as H0. rewrite N.add_0_r in H0.
    rewrite H0.
    replace (counter + N.of_nat (S k)) with (counter + 1 + N.of_nat k)
      in * by lia.
    rewrite (IH remaining (counter + 1)); try assumption; [reflexivity|lia|].
    intros j Hj. specialize (Hbusy (S j) ltac:(lia)).
    now replace (counter + N.of_nat (S j)) with (counter + 1 + N.of_nat j)
      in Hbusy by lia.
Qed.

(** One iteration of the loop. *)
Lemma attempts_step {G : Type} (git : Git.Ops G) (tagName : string)
    (remaining : nat) (counter : N) (g : G) :
  Deploy.attempts git (S remaining) counter tagName g
  = let tag := Deploy.currentTag tagName counter in
    let retry (g' : G) :=
      let '(published, tried, g'') :=
        Deploy.attempts git remaining (counter + 1) tagName g' in
      (published, tag :: tried, g'') in
    if Deploy.tagExists git g tag then retry g
    else
      let '(created, g1) := Git.tagCreate git g tag in
      if created then
        let '(pushed, g2) := Git.pushTag git g1 tag in
        if pushed then (Some tag, [tag], g2) else retry g2
      else retry g1.
Proof. reflexivity. Qed.

(** When the base name exists, the loop tries the name with [-1] next
    and does not come back to the base name. *)
Lemma attempts_after_collision {G : Type} (git : Git.Ops G)
    (tagName : string) (remaining : nat) (g : G) :
  Deploy.tagExists git g tagName = true ->
  exists rest,
    triedOf (Deploy.attempts git (S (S remaining)) 0 tagName g)
    = tagName :: (tagName ++ "-1") :: rest
    /\ ~ In tagName ((tagName ++ "-1") :: rest).
Proof.
  intros Hbase.
  pose proof (attempts_wellShaped git tagName (S (S remaining)) 0 g)
    as (Hall & _ & _).
  pose proof (candidates_NoDup tagName 0
                (List.length
                   (triedOf (Deploy.attempts git (S (S remaining)) 0
                               tagName g)))) as Hdup.
  rewrite <- Hall in Hdup. clear Hall. revert Hdup.
  rewrite attempts_step. cbv zeta.
  change (Deploy.currentTag tagName 0) with tagName. rewrite Hbase.
  pose proof (attempts_wellShaped git tagName (S remaining) (0 + 1) g)
    as (Htried & _ & Hend).
  destruct (Deploy.attempts git (S remaining) (0 + 1) tagName g)
    as [[published tried] g'].
  cbn [triedOf outcomeOf fst snd] in *.
  assert (Hlen : exists n, List.length tried = S n).
  { destruct published as [tag|]; [|now exists remaining].
    destruct Hend as (n & Hn & _). now exists n. }
  destruct Hlen as (n & Hn). rewrite Hn in Htried. cbn [counters map] in Htried.
  intros Hdup. exists (map (Deploy.currentTag tagName) (counters (0 + 1 + 1) n)).
  rewrite Htried in *. split; [reflexivity|].
  now inversion Hdup.
Qed.

(** The loop, from the counter 0 and with at least two iterations. *)
Lemma deploy_loop {G : Type} (git : Git.Ops G) (tagName : string)
    (remaining : nat) (g : G) :
  let loop := Deploy.attempts git (S (S remaining)) 0 tagName g in
  let run :=
    (match outcomeOf loop with
     | Some tag => Deploy.Returned tag
     | None => Deploy.Exit 1
     end, triedOf loop, stateOf loop) in
  (triedOf run
   = map (Deploy.currentTag tagName)
       (counters 0 (List.length (triedOf run)))
   /\ NoDup (triedOf run))
  /\ (Deploy.tagExists git g tagName = true ->
      exists rest,
        triedOf run = tagName :: (tagName ++ "-1") :: rest
        /\ ~ In tagName ((tagName ++ "-1") :: rest))
  /\ (forall (k : nat) (g1 g2 : G),
        (k < S (S remaining))%nat ->
        (forall j, (j < k)%nat ->
           Deploy.tagExists git g (Deploy.currentTag tagName (N.of_nat j)) = true) ->
        Deploy.tagExists git g (Deploy.currentTag tagName (N.of_nat k)) = false ->
        Git.tagCreate git g (Deploy.currentTag tagName (N.of_nat k))
        = (true, g1) ->
        Git.pushTag git g1 (Deploy.currentTag tagName (N.of_nat k))
        = (true, g2) ->
        outcomeOf run
        = Deploy.Returned (Deploy.currentTag tagName (N.of_nat k))
        /\ triedOf run
           = map (Deploy.currentTag tagName) (counters 0 (S k))).
Proof.
  intros loop run. subst run. cbn [triedOf outcomeOf fst snd].
  fold (triedOf loop). fold (outcomeOf loop).
  pose proof (attempts_wellShaped git tagName (S (S remaining)) 0 g)
    as (Htried & _ & _). fold loop in Htried.
  split; [split; [exact Htried|]|split].
  - rewrite Htried. apply candidates_NoDup.
  - apply attempts_after_collision.
  - intros k g1 g2 Hk Hbusy Hfree Hcreate Hpush. subst loop.
    rewrite (attempts_first_free git tagName g g1 g2 k (S (S remaining)) 0);
      try assumption.
    now split.
Qed.

Lemma counters_last (start : N) (n : nat) :
  In (start + N.of_nat n) (counters start (S n)).
Proof.
  revert start. induction n as [|n IH]; intros start.
  - left. lia.
  - right. replace (start + N.of_nat (S n)) with (start + 1 + N.of_nat n)
      by lia. apply IH.
Qed.

(** The loop takes no more names than it has iterations, and ends on a
    name it tried or after all of them. *)
Lemma deploy_loop_bound {G : Type} (git : Git.Ops G) (tagName : string)
    (remaining : nat) (g : G) :
  let loop := Deploy.attempts git remaining 0 tagName g in
  let run :=
    (match outcomeOf loop with
     | Some tag => Deploy.Returned tag
     | None => Deploy.Exit 1
     end, triedOf loop, stateOf loop) in
  (List.length (triedOf run) <= remaining)%nat
  /\ triedOf run
     = map (Deploy.currentTag tagName)
         (counters 0 (List.length (triedOf run)))
  /\ ((exists tag, outcomeOf run = Deploy.Returned tag /\ In tag (triedOf run))
      \/ (outcomeOf run = Deploy.Exit 1
          /\ List.length (triedOf run) = remaining)).
Proof.
  intros loop run. subst run. cbn [triedOf outcomeOf fst snd].
  fold (triedOf loop). fold (outcomeOf loop).
  pose proof (attempts_wellShaped git tagName remaining 0 g)
    as (Htried & Hlen & Hend). fold loop in Htried, Hlen, Hend.
  split; [exact Hlen|]. split; [exact Htried|].
  destruct (outcomeOf loop) as [tag|].
  - left. exists tag. split; [reflexivity|].
    destruct Hend as (n & Hn & Htag). rewrite Htried, Hn, Htag.
    apply in_map, counters_last.
  - right. now split.
Qed.

(** [createAndPushTag] of [build/deploy.js] is its loop, started at the
    counter 0 on the name [v] followed by the tag version. *)
Lemma deploy_run {G : Type} (git : Git.Ops G) (env : option string)
    (version : string) (g : G) :
  getTagVersion env = Some version ->
  Deploy.createAndPushTag git env g
  = let run := Deploy.attempts git Deploy.maxAttempts 0 ("v" ++ version) g in
    (match outcomeOf run with
     | Some tag => Deploy.Returned tag
     | None => Deploy.Exit 1
     end, triedOf run, stateOf run).
Proof.
  intros H. unfold Deploy.createAndPushTag. rewrite H.
  now destruct (Deploy.attempts git Deploy.maxAttempts 0 ("v" ++ version) g)
    as [[[tag|] tried] g'].
Qed.

(** C6.  The names that [createAndPushTag] of [build/deploy.js] tries are
    the base name [v{TagVersion}], then the base name with the suffixes
    [-1], [-2], ... in this order, and no name is tried twice.  When the
    base name exists, the next name tried is the base name with [-1] and
    the base name is not tried again.  When the first [k] candidates
    exist and the next one is free, and is created and pushed, that one
    is published. *)
Theorem tag_suffix_on_collision {G : Type} (git : Git.Ops G)
    (env : option string) (version : string) (g : G) :
  getTagVersion env = Some version ->
  let tagName := "v" ++ version in
  let run := Deploy.createAndPushTag git env g in
  (triedOf run
   = map (Deploy.currentTag tagName)
       (counters 0 (List.length (triedOf run)))
   /\ NoDup (triedOf run))
  /\ (Deploy.tagExists git g tagName = true ->
      exists rest,
        triedOf run = tagName :: (tagName ++ "-1") :: rest
        /\ ~ In tagName ((tagName ++ "-1") :: rest))
  /\ (forall (k : nat) (g1 g2 : G),
        (k < Deploy.maxAttempts)%nat ->
        (forall j, (j < k)%nat ->
           Deploy.tagExists git g (Deploy.currentTag tagName (N.of_nat j)) = true) ->
        Deploy.tagExists git g (Deploy.currentTag tagName (N.of_nat k)) = false ->
        Git.tagCreate git g (Deploy.currentTag tagName (N.of_nat k))
        = (true, g1) ->
        Git.pushTag git g1 (Deploy.currentTag tagName (N.of_nat k))
        = (true, g2) ->
        outcomeOf run
        = Deploy.Returned (Deploy.currentTag tagName (N.of_nat k))
        /\ triedOf run
           = map (Deploy.currentTag tagName) (counters 0 (S k))).
Proof.
  intros Henv tagName run. subst run.
  rewrite (deploy_run git env version g Henv). fold tagName.
  exact (deploy_loop git tagName 98 g).
Qed.

Lemma tag_suffix_on_collision_witness :
  outcomeOf (Deploy.createAndPushTag Git.memory envOfTag storeWithTag)
  = Deploy.Returned "v1.0.0.0-1"
  /\ triedOf (Deploy.createAndPushTag Git.memory envOfTag storeWithTag)
     = ["v1.0.0.0"; "v1.0.0.0-1"].
Proof.
  refine (proj2 (proj2 (tag_suffix_on_collision Git.memory envOfTag "1.0.0.0"
                          storeWithTag eq_refl))
            1%nat _ _ _ _ eq_refl eq_refl eq_refl).
  - unfold Deploy.maxAttempts. lia.
  - intros [|j] Hj; [reflexivity|lia].
Defined.

(** C7.  [createAndPushTag] of [build/deploy.js] tries at most 100 names;
    every iteration of its loop, whether the name exists or its creation
    or its push fails, takes the next counter; the run ends with a tag
    that was tried, or with the exit code 1, and then, when the
    environment file has a tag version, after exactly 100 names. *)
Theorem publisher_attempt_bound {G : Type} (git : Git.Ops G)
    (env : option string) (g : G) :
  let run := Deploy.createAndPushTag git env g in
  (List.length (triedOf run) <= Deploy.maxAttempts)%nat
  /\ (forall version,
        getTagVersion env = Some version ->
        triedOf run
        = map (Deploy.currentTag ("v" ++ version))
            (counters 0 (List.length (triedOf run))))
  /\ ((exists tag, outcomeOf run = Deploy.Returned tag /\ In tag (triedOf run))
      \/ (outcomeOf run = Deploy.Exit 1
          /\ (getTagVersion env <> None ->
              List.length (triedOf run) = Deploy.maxAttempts))).
Proof.
  cbv zeta. destruct (getTagVersion env) as [version|] eqn:Henv.
  - rewrite (deploy_run git env version g Henv).
    destruct (deploy_loop_bound git ("v" ++ version) Deploy.maxAttempts g)
      as (Hlen & Htried & Hend).
    split; [exact Hlen|]. split; [now intros ? [= <-]|].
    destruct Hend as [Hend|[Hexit Hall]]; [now left|right].
    now split.
  - unfold Deploy.createAndPushTag. rewrite Henv.
    cbn [triedOf outcomeOf fst snd List.length].
    split; [apply Nat.le_0_l|]. split; [discriminate|].
    right. split; [reflexivity|]. intros H. now elim H.
Qed.

Lemma publisher_attempt_bound_witness :
  let run :=
    Deploy.createAndPushTag Git.memory envOfTag
      (storeWithCandidates "v1.0.0.0" 100) in
  outcomeOf run = Deploy.Exit 1 /\ List.length (triedOf run) = 100%nat.
Proof.
  cbv zeta.
  destruct (proj2 (proj2 (publisher_attempt_bound Git.memory envOfTag
                            (storeWithCandidates "v1.0.0.0" 100))))
    as [(tag & H & _)|[H1 H2]].
  - vm_compute in H. discriminate H.
  - split; [exact H1|]. apply H2. discriminate.
Defined.

(** ** The two tag publishers *)

(** C10, as the claim has it, fails: when the tag of the tag version
    exists, [createAndPushTag] of [build/deploy.js] publishes the name
    with the suffix [-1], and [createAndPushTag] of the post-commit hook
    throws. *)
Lemma publishers_disagree_on_collision :
  outcomeOf (Deploy.createAndPushTag Git.memory envOfTag storeWithTag)
  = Deploy.Returned "v1.0.0.0-1"
  /\ fst (PostCommit.createAndPushTag Git.memory envOfTag storeWithTag) = None
  /\ ~ agree
         (outcomeOf (Deploy.createAndPushTag Git.memory envOfTag storeWithTag))
         (fst (PostCommit.createAndPushTag Git.memory envOfTag storeWithTag)).
Proof.
  split; [reflexivity|]. split; [reflexivity|].
  vm_compute. intros H. exact H.
Qed.

Lemma deploy_first_try {G : Type} (git : Git.Ops G) (env : option string)
    (version : string) (g g1 g2 : G) :
  getTagVersion env = Some version ->
  Deploy.tagExists git g ("v" ++ version) = false ->
  Git.tagCreate git g ("v" ++ version) = (true, g1) ->
  Git.pushTag git g1 ("v" ++ version) = (true, g2) ->
  Deploy.createAndPushTag git env g
  = (Deploy.Returned ("v" ++ version), ["v" ++ version], g2).
Proof.
  intros Henv Hfree Hcreate Hpush.
  rewrite (deploy_run git env version g Henv).
  rewrite (attempts_first_free git ("v" ++ version) g g1 g2 0
             Deploy.maxAttempts 0); try assumption; try reflexivity.
  - unfold Deploy.maxAttempts. lia.
  - intros j Hj. lia.
Qed.

(** C10, amended.  The two publishers agree when the environment file
    has no tag version, where both fail, and when the tag of the tag
    version does not exist, its creation and its push succeed and the
    remote lists it, where both publish [v{TagVersion}] and leave the
    same state. *)
Theorem publishers_agree_without_collision {G : Type} (git : Git.Ops G)
    (env : option string) (g : G) :
  (getTagVersion env = None ->
   agree (outcomeOf (Deploy.createAndPushTag git env g))
     (fst (PostCommit.createAndPushTag git env g)))
  /\ forall (version listed remote : string) (g1 g2 : G),
       getTagVersion env = Some version ->
       let tagName := "v" ++ version in
       Deploy.tagExists git g tagName = false ->
       Git.tagList git g tagName = Some listed ->
       Js.trim listed <> tagName ->
       Git.tagCreate git g tagName = (true, g1) ->
       Git.pushTag git g1 tagName = (true, g2) ->
       Git.lsRemote git g2 = Some remote ->
       Js.includes remote ("refs/tags/" ++ tagName) = true ->
       outcomeOf (Deploy.createAndPushTag git env g) = Deploy.Returned tagName
       /\ fst (PostCommit.createAndPushTag git env g) = Some tagName
       /\ agree (outcomeOf (Deploy.createAndPushTag git env g))
            (fst (PostCommit.createAndPushTag git env g))
       /\ stateOf (Deploy.createAndPushTag git env g)
          = snd (PostCommit.createAndPushTag git env g).
Proof.
  split.
  - intros Henv. unfold Deploy.createAndPushTag, PostCommit.createAndPushTag.
    rewrite Henv. exact I.
  - intros version listed remote g1 g2 Henv tagName Hfree Hlist Hlisted
      Hcreate Hpush Hremote Hverify.
    rewrite (deploy_first_try git env version g g1 g2 Henv Hfree Hcreate Hpush).
    unfold PostCommit.createAndPushTag. rewrite Henv. fold tagName.
    rewrite Hlist. apply String.eqb_neq in Hlisted. rewrite Hlisted.
    rewrite Hcreate, Hpush, Hremote, Hverify.
    now repeat split.
Qed.

Lemma publishers_agree_without_collision_witness :
  outcomeOf (Deploy.createAndPushTag Git.memory envOfFreeTag storeWithTag)
  = Deploy.Returned "v1.0.0.1"
  /\ fst (PostCommit.createAndPushTag Git.memory envOfFreeTag storeWithTag)
     = Some "v1.0.0.1".
Proof.
  destruct (proj2 (publishers_agree_without_collision Git.memory envOfFreeTag
                     storeWithTag)
              "1.0.0.1" EmptyString
              (Git.remoteLine "v1.0.0.1")
              (Git.mkStore ["v1.0.0.1"; "v1.0.0.0"] [])
              (Git.mkStore ["v1.0.0.1"; "v1.0.0.0"] ["v1.0.0.1"])
              eq_refl eq_refl eq_refl ltac:(discriminate) eq_refl eq_refl
              eq_refl eq_refl)
    as (Hdeploy & Hhook & _).
  split; [exact Hdeploy|exact Hhook].
Defined.

(** * More properties of the code *)

(** ** Trimming *)

Lemma trimStart_append (p k : string) (c : ascii) :
  Js.isWhiteSpace c = false ->
  Js.trimStart (p ++ String c k) = Js.trimStart p ++ String c k.
Proof.
  intros Hc. induction p as [|x p IH]; simpl.
  - now rewrite Hc.
  - destruct (Js.isWhiteSpace x); [exact IH|reflexivity].
Qed.

Lemma trimStart_idem (s : string) :
  Js.trimStart (Js.trimStart s) = Js.trimStart s.
Proof.
  induction s as [|c s IH]; [reflexivity|].
  cbn [Js.trimStart]. destruct (Js.isWhiteSpace c) eqn:Hc; [exact IH|].
  cbn [Js.trimStart]. now rewrite Hc.
Qed.

(** The end of a concatenation is trimmed in its second part, and in its
    first part when nothing is left of the second. *)
Lemma trimEnd_append (a b : string) :
  Js.trimEnd (a ++ b)
  = if Js.isEmpty (Js.trimEnd b) then Js.trimEnd a else a ++ Js.trimEnd b.
Proof.
  induction a as [|c a IH]; simpl.
  - now destruct (Js.trimEnd b).
  - rewrite IH. destruct (Js.isEmpty (Js.trimEnd b)) eqn:Hb; [reflexivity|].
    destruct a; simpl.
    + destruct (Js.trimEnd b); [discriminate Hb|].
      now rewrite andb_false_r.
    + now rewrite andb_false_r.
Qed.

Lemma trimEnd_idem (s : string) : Js.trimEnd (Js.trimEnd s) = Js.trimEnd s.
Proof.
  induction s as [|c s IH]; [reflexivity|].
  cbn [Js.trimEnd].
  destruct (Js.isWhiteSpace c && Js.isEmpty (Js.trimEnd s)) eqn:E;
    [reflexivity|].
  cbn [Js.trimEnd]. rewrite IH, E. reflexivity.
Qed.

(** What is left of a text of which something is left starts as the text
    does. *)
Lemma trimEnd_head (c : ascii) (s : string) :
  Js.trimEnd (String c s) = EmptyString
  \/ exists t, Js.trimEnd (String c s) = String c t.
Proof.
  cbn [Js.trimEnd].
  destruct (Js.isWhiteSpace c && Js.isEmpty (Js.trimEnd s)); [now left|].
  right. now eexists.
Qed.

Lemma tagLike_cases (tag : string) :
  tagLike tag = true ->
  Js.isEmpty tag = false
  /\ every (fun c => negb (Js.isWhiteSpace c)) tag = true
  /\ lacks LF tag = true
  /\ every (fun c => negb (Js.isLineTerminator c)) tag = true.
Proof.
  unfold tagLike. intros H. apply andb_true_iff in H as [Hne Hsolid].
  apply negb_true_iff in Hne. repeat split; try assumption.
  - rewrite lacks_every. revert Hsolid. apply every_weaken.
    intros c Hc. destruct (Ascii.eqb c LF) eqn:E; [|reflexivity].
    apply Ascii.eqb_eq in E. subst c. discriminate Hc.
  - revert Hsolid. apply every_weaken. intros c Hc.
    destruct (Js.isLineTerminator c) eqn:E; [|reflexivity].
    destruct (lineTerminator_cases c E) as [-> | ->]; discriminate Hc.
Qed.

Lemma trimEnd_tag (tag post : string) :
  tagLike tag = true ->
  Js.trimEnd (tag ++ post) = tag ++ Js.trimEnd post
  /\ Js.isEmpty (Js.trimEnd (tag ++ post)) = false.
Proof.
  intros H. destruct (tagLike_cases tag H) as (Hne & Hsolid & _).
  assert (E : Js.trimEnd (tag ++ post) = tag ++ Js.trimEnd post).
  { rewrite trimEnd_append.
    destruct (Js.isEmpty (Js.trimEnd post)) eqn:Hp; [|reflexivity].
    rewrite (trimEnd_solid tag Hsolid).
    destruct (Js.trimEnd post); [|discriminate Hp].
    now rewrite append_empty_r. }
  split; [exact E|]. rewrite E. destruct tag; [discriminate Hne|reflexivity].
Qed.

(** The trimmed form of a text around the key and a tag version. *)
Lemma trim_around_key (p tag post : string) :
  tagLike tag = true ->
  Js.trim (p ++ PreCommit.TAG_KEY ++ tag ++ post)
  = Js.trimStart p ++ PreCommit.TAG_KEY ++ tag ++ Js.trimEnd post.
Proof.
  intros H. destruct (trimEnd_tag tag post H) as (Htag & Hne).
  unfold Js.trim.
  change (PreCommit.TAG_KEY ++ tag ++ post)
    with (String "T" ("AG_VERSION=" ++ tag ++ post)).
  rewrite trimStart_append by reflexivity.
  change (String "T" ("AG_VERSION=" ++ tag ++ post))
    with (PreCommit.TAG_KEY ++ tag ++ post).
  rewrite <- (append_assoc (Js.trimStart p) PreCommit.TAG_KEY (tag ++ post)).
  rewrite trimEnd_append, Hne, Htag.
  now rewrite append_assoc.
Qed.

(** ** The key of the environment file *)

(** The key does not overlap itself: before an occurrence of the key, an
    occurrence starts only inside a text that holds the key. *)
Lemma key_no_overlap (a rest : string) :
  Js.isEmpty a = false ->
  Js.includes a PreCommit.TAG_KEY = false ->
  prefix PreCommit.TAG_KEY (a ++ PreCommit.TAG_KEY ++ rest) = false.
Proof.
  intros Ha Hinc.
  destruct (prefix PreCommit.TAG_KEY (a ++ PreCommit.TAG_KEY ++ rest)) eqn:H;
    [exfalso|reflexivity].
  destruct a as [|c a]; [discriminate Ha|]. clear Ha.
  unfold PreCommit.TAG_KEY in *.
  repeat (cbn [prefix append] in H;
          match type of H with
          | (if ascii_dec ?x ?y then _ else _) = true =>
              let E := fresh "E" in
              destruct (ascii_dec x y) as [E|]; [|discriminate H];
              first [discriminate E | subst; destruct a as [|? a]]
          end).
  all: vm_compute in Hinc; discriminate Hinc.
Qed.

Lemma includes_tail (c : ascii) (s k : string) :
  Js.includes (String c s) k = false ->
  prefix k (String c s) = false /\ Js.includes s k = false.
Proof. cbn [Js.includes]. intros H. now apply orb_false_iff in H. Qed.

Lemma includes_trimStart (s k : string) :
  Js.includes s k = false -> Js.includes (Js.trimStart s) k = false.
Proof.
  induction s as [|c s IH]; intros H; [exact H|].
  cbn [Js.trimStart]. destruct (Js.isWhiteSpace c); [|exact H].
  apply IH. now apply includes_tail in H.
Qed.

(** The leftmost occurrence of a key, and what [replace] makes of it. *)
Lemma replaceKeyLine_first (key s : string) :
  Js.isEmpty key = false ->
  Js.includes s key = true ->
  exists p rest,
    s = p ++ key ++ rest
    /\ Js.includes p key = false
    /\ forall repl,
         Js.replaceKeyLine key repl s = p ++ repl ++ Js.afterDotStar rest.
Proof.
  intros Hkey. induction s as [|c s IH]; intros H.
  - destruct key; [discriminate Hkey|discriminate H].
  - destruct (prefix key (String c s)) eqn:Hp.
    + exists EmptyString, (Js.slice (String.length key) (String c s)).
      split; [now apply prefix_slice|]. split.
      * destruct key; [discriminate Hkey|reflexivity].
      * intros repl. cbn [Js.replaceKeyLine]. now rewrite Hp.
    + cbn [Js.includes] in H. rewrite Hp in H. cbn [orb] in H.
      destruct (IH H) as (p & rest & Hs & Hfirst & Hrepl).
      exists (String c p), rest. split; [simpl; now rewrite <- Hs|]. split.
      * cbn [Js.includes]. rewrite Hfirst, orb_false_r.
        destruct (prefix key (String c p)) eqn:Hq; [|reflexivity].
        pose proof (prefix_append key (String c p) (key ++ rest) Hq) as Hq'.
        change (String c p ++ key ++ rest) with (String c (p ++ key ++ rest))
          in Hq'.
        rewrite <- Hs, Hp in Hq'. discriminate Hq'.
      * intros repl. cbn [Js.replaceKeyLine]. rewrite Hp.
        now rewrite (Hrepl repl).
Qed.

Lemma slice_append (k rest : string) :
  Js.slice (String.length k) (k ++ rest) = rest.
Proof. induction k as [|c k IH]; [now destruct rest|exact IH]. Qed.

Lemma replaceKeyLine_head (key repl rest : string) :
  Js.isEmpty key = false ->
  Js.replaceKeyLine key repl (key ++ rest) = repl ++ Js.afterDotStar rest.
Proof.
  intros Hkey. destruct key as [|c k]; [discriminate Hkey|].
  change (String c k ++ rest) with (String c (k ++ rest)).
  cbn [Js.replaceKeyLine].
  change (String c (k ++ rest)) with (String c k ++ rest).
  now rewrite prefix_self, slice_append.
Qed.

Lemma matchKeyLine_head (key rest : string) :
  Js.isEmpty key = false ->
  Js.isEmpty (Js.notNewlineStar rest) = false ->
  Js.matchKeyLine key (key ++ rest) = Some (Js.notNewlineStar rest).
Proof.
  intros Hkey Hrest. destruct key as [|c k]; [discriminate Hkey|].
  change (String c k ++ rest) with (String c (k ++ rest)).
  cbn [Js.matchKeyLine].
  change (String c (k ++ rest)) with (String c k ++ rest).
  now rewrite prefix_self, slice_append, Hrest.
Qed.

(** Before the first occurrence of the key nothing is replaced. *)
Lemma replaceKeyLine_skip (p repl rest : string) :
  Js.includes p PreCommit.TAG_KEY = false ->
  Js.replaceKeyLine PreCommit.TAG_KEY repl (p ++ PreCommit.TAG_KEY ++ rest)
  = p ++ repl ++ Js.afterDotStar rest.
Proof.
  induction p as [|c p IH]; intros H.
  - exact (replaceKeyLine_head PreCommit.TAG_KEY repl rest eq_refl).
  - pose proof (key_no_overlap (String c p) rest eq_refl H) as Hp.
    change (String c p ++ PreCommit.TAG_KEY ++ rest)
      with (String c (p ++ PreCommit.TAG_KEY ++ rest)) in *.
    cbn [Js.replaceKeyLine]. rewrite Hp.
    apply includes_tail in H as [_ H]. now rewrite (IH H).
Qed.

(** Before the first occurrence of the key nothing is matched. *)
Lemma matchKeyLine_skip (p rest : string) :
  Js.includes p PreCommit.TAG_KEY = false ->
  Js.matchKeyLine PreCommit.TAG_KEY (p ++ PreCommit.TAG_KEY ++ rest)
  = Js.matchKeyLine PreCommit.TAG_KEY (PreCommit.TAG_KEY ++ rest).
Proof.
  induction p as [|c p IH]; intros H.
  - reflexivity.
  - pose proof (key_no_overlap (String c p) rest eq_refl H) as Hp.
    change (String c p ++ PreCommit.TAG_KEY ++ rest)
      with (String c (p ++ PreCommit.TAG_KEY ++ rest)) in *.
    cbn [Js.matchKeyLine]. rewrite Hp. cbn [Js.isEmpty].
    apply includes_tail in H as [_ H]. now apply IH.
Qed.

Lemma notNewlineStar_append (a b : string) :
  lacks LF a = true ->
  Js.notNewlineStar (a ++ b) = a ++ Js.notNewlineStar b.
Proof.
  induction a as [|c a IH]; simpl; intros H; [reflexivity|].
  apply andb_true_iff in H as [Hc Ha]. apply negb_true_iff in Hc.
  change (Ascii.eqb c "010") with (Ascii.eqb c LF).
  now rewrite Hc, (IH Ha).
Qed.

Lemma afterDotStar_append (a b : string) :
  every (fun c => negb (Js.isLineTerminator c)) a = true ->
  Js.afterDotStar (a ++ b) = Js.afterDotStar b.
Proof.
  induction a as [|c a IH]; simpl; intros H; [reflexivity|].
  apply andb_true_iff in H as [Hc Ha]. apply negb_true_iff in Hc.
  now rewrite Hc, (IH Ha).
Qed.

Lemma atLineEnd_trimEnd (post : string) :
  atLineEnd post -> atLineEnd (Js.trimEnd post).
Proof.
  intros [->|(c & t & -> & Hc)]; [now left|].
  destruct (trimEnd_head c t) as [->|(t' & ->)]; [now left|].
  right. now exists c, t'.
Qed.

Lemma afterDotStar_atLineEnd (post : string) :
  atLineEnd post -> Js.afterDotStar post = post.
Proof.
  intros [->|(c & t & -> & Hc)]; [reflexivity|].
  cbn [Js.afterDotStar]. now rewrite Hc.
Qed.

(** What [updateEnvTagVersion] writes: the text before the first
    occurrence of the key, or the whole prior content when the key is
    absent, trimmed at its start; the key and the tag version; what
    followed the line of the key, or a line feed, trimmed at its end. *)
Lemma updateEnvContent_form (prior tag : string) :
  tagLike tag = true ->
  exists p post,
    Js.includes p PreCommit.TAG_KEY = false
    /\ atLineEnd post
    /\ (lacks CR prior = true -> lacks CR post = true)
    /\ PreCommit.updateEnvContent prior tag
       = Js.trimStart p ++ PreCommit.TAG_KEY ++ tag ++ Js.trimEnd post.
Proof.
  intros Htag. unfold PreCommit.updateEnvContent.
  destruct (Js.includes prior PreCommit.TAG_KEY) eqn:Hinc.
  - destruct (replaceKeyLine_first PreCommit.TAG_KEY prior eq_refl Hinc)
      as (p & rest & Hprior & Hfirst & Hrepl).
    rewrite Hrepl. clear Hrepl.
    destruct (afterDotStar_run rest) as (old & Hrest & Hold).
    exists p, (Js.afterDotStar rest). repeat split.
    + exact Hfirst.
    + destruct (afterDotStar_head rest) as [E|E]; [now left|now right].
    + intros Hcr. rewrite Hprior, Hrest, !lacks_append in Hcr.
      apply andb_true_iff in Hcr as [_ Hcr].
      apply andb_true_iff in Hcr as [_ Hcr].
      now apply andb_true_iff in Hcr as [_ Hcr].
    + rewrite append_assoc. now apply trim_around_key.
  - exists prior, (String LF EmptyString). repeat split.
    + exact Hinc.
    + right. now exists LF, EmptyString.
    + now apply trim_around_key.
Qed.

(** ** The environment file, read back *)

Lemma notNewlineStar_split (s : string) :
  exists post,
    s = Js.notNewlineStar s ++ post
    /\ (post = EmptyString \/ exists t, post = String LF t)
    /\ lacks LF (Js.notNewlineStar s) = true.
Proof.
  induction s as [|c s (post & Hs & Hpost & Hrun)].
  - exists EmptyString. repeat split. now left.
  - cbn [Js.notNewlineStar]. change (Ascii.eqb c "010") with (Ascii.eqb c LF).
    destruct (Ascii.eqb c LF) eqn:Hc.
    + apply Ascii.eqb_eq in Hc. subst c. exists (String LF s).
      repeat split. right. now exists s.
    + exists post. repeat split.
      * simpl. now rewrite <- Hs.
      * exact Hpost.
      * simpl. now rewrite Hc, Hrun.
Qed.

Lemma matchKeyLine_sound (key s v : string) :
  Js.matchKeyLine key s = Some v ->
  exists p post,
    s = p ++ key ++ v ++ post
    /\ Js.isEmpty v = false
    /\ lacks LF v = true
    /\ (post = EmptyString \/ exists t, post = String LF t).
Proof.
  induction s as [|c s IH]; cbn [Js.matchKeyLine].
  - destruct (prefix key EmptyString) eqn:Hp.
    + apply prefix_empty in Hp. subst key. discriminate.
    + discriminate.
  - destruct (prefix key (String c s)) eqn:Hp.
    + set (rest := Js.slice (String.length key) (String c s)).
      destruct (Js.isEmpty (Js.notNewlineStar rest)) eqn:He.
      * intros H. destruct (IH H) as (p & post & -> & Hv).
        now exists (String c p), post.
      * intros [= <-].
        destruct (notNewlineStar_split rest) as (post & Hrest & Hpost & Hrun).
        exists EmptyString, post. repeat split; try assumption.
        cbn [append]. rewrite <- Hrest. now apply prefix_slice.
    + cbn [Js.isEmpty]. intros H. destruct (IH H) as (p & post & -> & Hv).
      now exists (String c p), post.
Qed.

Lemma matchKeyLine_absent (key s : string) :
  Js.includes s key = false -> Js.matchKeyLine key s = None.
Proof.
  induction s as [|c s IH]; intros H.
  - cbn [Js.includes] in H. apply orb_false_iff in H as [Hp _].
    cbn [Js.matchKeyLine]. now rewrite Hp.
  - apply includes_tail in H as [Hp Hs].
    cbn [Js.matchKeyLine]. rewrite Hp. cbn [Js.isEmpty]. now apply IH.
Qed.

(** X1.  [getTagVersion] finds what the environment file holds after
    [TAG_VERSION=]: the text it returns is not empty, holds no line feed,
    follows an occurrence of the key in the file and ends at a line feed
    or at the end of the file.  Without the file, or without the key in
    it, [getTagVersion] throws. *)
Theorem getTagVersion_spec (envFile : option string) :
  (forall v,
     getTagVersion envFile = Some v ->
     exists content p post,
       envFile = Some content
       /\ content = p ++ PreCommit.TAG_KEY ++ v ++ post
       /\ Js.isEmpty v = false
       /\ lacks LF v = true
       /\ (post = EmptyString \/ exists t, post = String LF t))
  /\ (envFile = None -> getTagVersion envFile = None)
  /\ (forall content,
        envFile = Some content ->
        Js.includes content PreCommit.TAG_KEY = false ->
        getTagVersion envFile = None).
Proof.
  repeat split.
  - intros v H. destruct envFile as [content|]; [|discriminate H].
    destruct (matchKeyLine_sound _ _ _ H) as (p & post & Hc & Hv).
    now exists content, p, post.
  - now intros ->.
  - intros content -> H. now apply matchKeyLine_absent.
Qed.

Lemma getTagVersion_spec_witness :
  exists content p post,
    Some ("A=1" ++ String LF ("TAG_VERSION=5.1.0.9" ++ String LF "B=2"))
    = Some content
    /\ content = p ++ PreCommit.TAG_KEY ++ "5.1.0.9" ++ post
    /\ Js.isEmpty "5.1.0.9" = false
    /\ lacks LF "5.1.0.9" = true
    /\ (post = EmptyString \/ exists t, post = String LF t).
Proof.
  exact (proj1 (getTagVersion_spec
                  (Some ("A=1" ++ String LF
                           ("TAG_VERSION=5.1.0.9" ++ String LF "B=2"))))
           "5.1.0.9" eq_refl).
Defined.

Lemma show_solid (x : Js.element) :
  every (fun c => negb (Js.isWhiteSpace c)) (Js.show x) = true
  /\ Js.isEmpty (Js.show x) = false.
Proof.
  destruct x as [[|n]|]; try (split; reflexivity).
  cbn [Js.show]. split; [|apply showN_not_empty].
  apply digits_solid, showN_digits.
Qed.

(** The tag version that [updateEnvTagVersion] composes is not empty and
    holds no white space. *)
Lemma newTagVersion_tagLike (backVersion webVersion : string) :
  tagLike (PreCommit.newTagVersion backVersion webVersion) = true.
Proof.
  unfold tagLike, PreCommit.newTagVersion.
  apply andb_true_iff. split.
  - destruct (show_solid (nth_error (Js.components backVersion) 1))
      as (_ & H).
    destruct (Js.show (nth_error (Js.components backVersion) 1));
      [discriminate H|reflexivity].
  - rewrite !every_append.
    repeat (apply andb_true_iff; split); try reflexivity;
      apply show_solid.
Qed.

Lemma updateEnvTagVersion_tagLike (w : PreCommit.World) (tag : string) :
  fst (PreCommit.updateEnvTagVersion w) = Some tag -> tagLike tag = true.
Proof.
  unfold PreCommit.updateEnvTagVersion.
  destruct (PreCommit.getCurrentVersion w PreCommit.back);
    try discriminate;
    destruct (PreCommit.getCurrentVersion w PreCommit.web);
    try discriminate.
  destruct (PreCommit.envWritable w); [|discriminate].
  cbn [fst]. intros [= <-]. apply newTagVersion_tagLike.
Qed.

Lemma atLineEnd_without_CR (post : string) :
  atLineEnd post -> lacks CR post = true ->
  Js.notNewlineStar (Js.trimEnd post) = EmptyString.
Proof.
  intros [->|(c & t & -> & Hc)] Hcr; [reflexivity|].
  destruct (lineTerminator_cases c Hc) as [-> | ->]; [|discriminate Hcr].
  destruct (trimEnd_head LF t) as [->|(t' & ->)]; reflexivity.
Qed.

(** X2.  What the pre-commit hook writes, the publishers read: after
    [updateEnvTagVersion] has returned a tag version, over an environment
    file without carriage returns, [getTagVersion] returns that tag
    version from the file. *)
Theorem env_round_trip (w : PreCommit.World) (tag : string) :
  fst (PreCommit.updateEnvTagVersion w) = Some tag ->
  lacks CR (PreCommit.contentOf (PreCommit.envFile w)) = true ->
  getTagVersion (PreCommit.envFile (snd (PreCommit.updateEnvTagVersion w)))
  = Some tag.
Proof.
  intros H Hcr.
  pose proof (updateEnvTagVersion_tagLike w tag H) as Htag.
  destruct (updateEnvTagVersion_written w tag H) as [_ ->].
  destruct (updateEnvContent_form
              (PreCommit.contentOf (PreCommit.envFile w)) tag Htag)
    as (p & post & Hfirst & Hpost & Hpcr & ->).
  destruct (tagLike_cases tag Htag) as (Hne & _ & Hlf & _).
  cbn [getTagVersion]. change "TAG_VERSION=" with PreCommit.TAG_KEY.
  rewrite matchKeyLine_skip by now apply includes_trimStart.
  assert (E : Js.notNewlineStar (tag ++ Js.trimEnd post) = tag).
  { rewrite (notNewlineStar_append _ _ Hlf).
    rewrite (atLineEnd_without_CR post Hpost (Hpcr Hcr)).
    apply append_empty_r. }
  rewrite matchKeyLine_head;
    [now rewrite E|reflexivity|now rewrite E].
Qed.

Lemma env_round_trip_witness :
  getTagVersion
    (PreCommit.envFile
       (snd (PreCommit.updateEnvTagVersion
               (envWorld "2.5.1" "1.0.9"
                  (Some ("A=1" ++ String LF
                           ("TAG_VERSION=0.0.0.0" ++ String LF "B=2")))))))
  = Some "5.1.0.9".
Proof.
  exact (env_round_trip
           (envWorld "2.5.1" "1.0.9"
              (Some ("A=1" ++ String LF
                       ("TAG_VERSION=0.0.0.0" ++ String LF "B=2"))))
           "5.1.0.9" eq_refl eq_refl).
Defined.

Lemma updateEnvContent_idem (prior tag : string) :
  tagLike tag = true ->
  PreCommit.updateEnvContent (PreCommit.updateEnvContent prior tag) tag
  = PreCommit.updateEnvContent prior tag.
Proof.
  intros Htag.
  destruct (updateEnvContent_form prior tag Htag)
    as (p & post & Hfirst & Hpost & _ & ->).
  destruct (tagLike_cases tag Htag) as (_ & _ & _ & Hrun).
  pose proof (includes_trimStart p _ Hfirst) as Hp.
  unfold PreCommit.updateEnvContent at 1.
  rewrite includes_occurrence, replaceKeyLine_skip by exact Hp.
  rewrite (afterDotStar_append _ _ Hrun).
  rewrite (afterDotStar_atLineEnd _ (atLineEnd_trimEnd post Hpost)).
  rewrite append_assoc, (trim_around_key _ _ _ Htag).
  now rewrite trimStart_idem, trimEnd_idem.
Qed.

(** X3.  [updateEnvTagVersion] is idempotent on the environment file: a
    second run after a run that returned a tag version returns the same
    tag version and leaves the file as the first run wrote it. *)
Theorem env_update_idempotent (w : PreCommit.World) (tag : string) :
  fst (PreCommit.updateEnvTagVersion w) = Some tag ->
  let w1 := snd (PreCommit.updateEnvTagVersion w) in
  fst (PreCommit.updateEnvTagVersion w1) = Some tag
  /\ PreCommit.envFile (snd (PreCommit.updateEnvTagVersion w1))
     = PreCommit.envFile w1.
Proof.
  intros H w1.
  pose proof (updateEnvTagVersion_tagLike w tag H) as Htag.
  assert (Hcur : forall text message f,
             PreCommit.getCurrentVersion
               (PreCommit.log (PreCommit.writeEnvFile w text) message) f
             = PreCommit.getCurrentVersion w f) by reflexivity.
  subst w1. revert H. unfold PreCommit.updateEnvTagVersion at 1 3 5.
  destruct (PreCommit.getCurrentVersion w PreCommit.back) eqn:Hb;
    try discriminate;
    destruct (PreCommit.getCurrentVersion w PreCommit.web) eqn:Hw;
    try discriminate.
  destruct (PreCommit.envWritable w) eqn:He; [|discriminate].
  cbn [fst snd]. intros [= <-].
  unfold PreCommit.updateEnvTagVersion. rewrite !Hcur, Hb, Hw.
  cbn [PreCommit.log PreCommit.writeEnvFile PreCommit.envWritable
         PreCommit.envFile PreCommit.contentOf fst snd].
  rewrite He. cbn [fst snd PreCommit.log PreCommit.writeEnvFile
                     PreCommit.envFile].
  split; [reflexivity|]. now rewrite updateEnvContent_idem.
Qed.

Lemma env_update_idempotent_witness :
  let w1 :=
    snd (PreCommit.updateEnvTagVersion
           (envWorld "2.5.1" "1.0.9" (Some "A=1"))) in
  fst (PreCommit.updateEnvTagVersion w1) = Some "5.1.0.9"
  /\ PreCommit.envFile (snd (PreCommit.updateEnvTagVersion w1))
     = PreCommit.envFile w1.
Proof.
  exact (env_update_idempotent (envWorld "2.5.1" "1.0.9" (Some "A=1"))
           "5.1.0.9" eq_refl).
Defined.

(** ** The loop body of the pre-commit hook *)

(** X4.  When the staged version is absent or is the version of HEAD and
    no file other than the metadata file is staged, the loop body changes
    no version: the metadata files, the index and the environment file
    are as before and the history log gets one line. *)
Theorem no_change_needed (w : PreCommit.World) (f : PreCommit.folderName)
    (head : SemanticVersion) :
  safe head ->
  PreCommit.getHeadVersion w f = Js.Str (render head) ->
  stagedIs w f head ->
  PreCommit.hasFolderChanges w f = false ->
  let w' := snd (PreCommit.processFolder w f) in
  fst (PreCommit.processFolder w f) = PreCommit.NoChange
  /\ PreCommit.packageJson w' = PreCommit.packageJson w
  /\ PreCommit.gitShowIndex w' = PreCommit.gitShowIndex w
  /\ PreCommit.envFile w' = PreCommit.envFile w
  /\ PreCommit.historyLog w' = logged w (noChangeMessage f).
Proof.
  intros _ Hh Hs Hchanged w'. subst w'.
  unfold PreCommit.processFolder. rewrite Hh, Hchanged.
  destruct Hs as [Hs|Hs]; rewrite Hs.
  - rewrite !truthy_render. cbn [andb].
    rewrite handleMinorVersionBump_render, N.ltb_irrefl, andb_false_r.
    cbn [Js.strictNe]. rewrite String.eqb_refl. cbn [negb fst snd].
    repeat split.
  - cbn [andb fst snd]. repeat split.
Qed.

Lemma no_change_needed_witness :
  fst (PreCommit.processFolder (onlyMetadataStaged "1.0.0") PreCommit.web)
  = PreCommit.NoChange.
Proof.
  refine (proj1 (no_change_needed (onlyMetadataStaged "1.0.0") PreCommit.web
                   (mkVersion 1 0 0) _ eq_refl (or_introl eq_refl) eq_refl)).
  safe_components.
Defined.











(** ** Rewriting the version of a metadata file *)

Lemma lookup_assign_same (key : string) (x : Js.value)
    (fields : list (string * Js.value)) :
  Js.lookup key (Js.assign key x fields) = x.
Proof.
  induction fields as [|[k v] fields IH]; cbn [Js.assign Js.lookup].
  - now rewrite String.eqb_refl.
  - destruct (String.eqb k key) eqn:E; cbn [Js.lookup]; rewrite E;
      [reflexivity|exact IH].
Qed.

Lemma lookup_assign_other (key other : string) (x : Js.value)
    (fields : list (string * Js.value)) :
  other <> key ->
  Js.lookup other (Js.assign key x fields) = Js.lookup other fields.
Proof.
  intros Hne.
  induction fields as [|[k v] fields IH]; cbn [Js.assign Js.lookup].
  - apply String.eqb_neq in Hne. rewrite String.eqb_sym in Hne.
    now rewrite Hne.
  - destruct (String.eqb k key) eqn:E; cbn [Js.lookup].
    + apply String.eqb_eq in E. subst k.
      apply String.eqb_neq in Hne. rewrite String.eqb_sym in Hne.
      now rewrite Hne.
    + now rewrite IH.
Qed.

Lemma assign_keys (key : string) (x : Js.value)
    (fields : list (string * Js.value)) :
  Js.lookup key fields <> Js.Undefined ->
  map fst (Js.assign key x fields) = map fst fields.
Proof.
  induction fields as [|[k v] fields IH]; cbn [Js.assign Js.lookup].
  - intros H. now elim H.
  - destruct (String.eqb k key) eqn:E; [reflexivity|].
    intros H. cbn [map fst]. now rewrite (IH H).
Qed.

(** X6.  When [bumpPatchVersion] returns a version, the working tree had
    a metadata object with a text in its [version] field; the object
    written has the returned version in that field, every other field as
    it was and the fields in the same order, and the index holds what
    was written. *)
Theorem bump_keeps_other_fields (w w' : PreCommit.World)
    (f : PreCommit.folderName) (newVersion : string) :
  PreCommit.bumpPatchVersion w f = (Some newVersion, w') ->
  exists fields fields' old,
    PreCommit.packageJson w f = Some (PreCommit.Doc (Js.Obj fields))
    /\ Js.lookup "version" fields = Js.Str old
    /\ PreCommit.packageJson w' f = Some (PreCommit.Doc (Js.Obj fields'))
    /\ PreCommit.gitShowIndex w' f = Some (PreCommit.Doc (Js.Obj fields'))
    /\ Js.lookup "version" fields' = Js.Str newVersion
    /\ (forall key, key <> "version" ->
          Js.lookup key fields' = Js.lookup key fields)
    /\ map fst fields' = map fst fields.
Proof.
  unfold PreCommit.bumpPatchVersion.
  destruct (PreCommit.packageJson w f) as [[| |pkg]|] eqn:Hfile;
    try discriminate.
  destruct pkg as [| | | | | |fields]; try discriminate.
  cbn [Js.getProp].
  destruct (Js.lookup "version" fields) as [| | | |old| |] eqn:Hold;
    try discriminate.
  cbn [Js.setProp]. unfold PreCommit.writeAndStage.
  destruct (PreCommit.writable w f); [|discriminate].
  destruct (PreCommit.gitAdd _ f); [|discriminate].
  intros [= <- <-].
  match goal with
  | |- context [Js.assign "version" ?x fields] =>
      exists fields, (Js.assign "version" x fields), old
  end.
  split; [first [reflexivity|exact Hfile]|].
  split; [first [reflexivity|exact Hold]|].
  split; [cbn; unfold PreCommit.update; now destruct f|].
  split; [cbn; unfold PreCommit.update; now destruct f|].
  split; [apply lookup_assign_same|].
  split; [intros key Hkey; now apply lookup_assign_other|].
  apply assign_keys. rewrite Hold. discriminate.
Qed.

Lemma bump_keeps_other_fields_witness :
  exists fields fields' old,
    PreCommit.packageJson (worldAt "1.0.0" "1.0.0" "1.0.5") PreCommit.web
    = Some (PreCommit.Doc (Js.Obj fields))
    /\ Js.lookup "version" fields = Js.Str old
    /\ PreCommit.packageJson
         (snd (PreCommit.bumpPatchVersion (worldAt "1.0.0" "1.0.0" "1.0.5")
                 PreCommit.web)) PreCommit.web
       = Some (PreCommit.Doc (Js.Obj fields'))
    /\ PreCommit.gitShowIndex
         (snd (PreCommit.bumpPatchVersion (worldAt "1.0.0" "1.0.0" "1.0.5")
                 PreCommit.web)) PreCommit.web
       = Some (PreCommit.Doc (Js.Obj fields'))
    /\ Js.lookup "version" fields' = Js.Str "1.0.6"
    /\ (forall key, key <> "version" ->
          Js.lookup key fields' = Js.lookup key fields)
    /\ map fst fields' = map fst fields.
Proof.
  exact (bump_keeps_other_fields (worldAt "1.0.0" "1.0.0" "1.0.5")
           (snd (PreCommit.bumpPatchVersion (worldAt "1.0.0" "1.0.0" "1.0.5")
                   PreCommit.web))
           PreCommit.web "1.0.6" eq_refl).
Defined.

Lemma bumpPatchVersion_render (w : PreCommit.World) (f : PreCommit.folderName)
    (current : SemanticVersion) (fields : list (string * Js.value)) :
  PreCommit.packageJson w f = Some (PreCommit.Doc (Js.Obj fields)) ->
  Js.lookup "version" fields = Js.Str (render current) ->
  PreCommit.writable w f = true -> PreCommit.gitAdd w f = true ->
  PreCommit.bumpPatchVersion w f
  = (Some (render (bumpedVersion current)),
     PreCommit.stage
       (PreCommit.writePackageJson w f
          (PreCommit.Doc
             (Js.Obj (Js.assign "version"
                        (Js.Str (render (bumpedVersion current))) fields))))
       f).
Proof.
  intros Hfile Hversion Hwrite Hadd.
  unfold PreCommit.bumpPatchVersion. rewrite Hfile. cbn [Js.getProp].
  rewrite Hversion, components_render. cbn [Js.setProp nth_error Js.succ].
  unfold PreCommit.writeAndStage. rewrite Hwrite.
  cbn [PreCommit.writePackageJson PreCommit.gitAdd]. now rewrite Hadd.
Qed.

(** X7.  The version that [bumpPatchVersion] writes is read back: after
    a bump of a version major.minor.patch in the working tree,
    [getCurrentVersion] and [getStagedVersion] both return
    major.minor.(patch + 1). *)
Theorem bump_then_read (w : PreCommit.World) (f : PreCommit.folderName)
    (current : SemanticVersion) (fields : list (string * Js.value)) :
  safe current ->
  PreCommit.packageJson w f = Some (PreCommit.Doc (Js.Obj fields)) ->
  Js.lookup "version" fields = Js.Str (render current) ->
  PreCommit.writable w f = true -> PreCommit.gitAdd w f = true ->
  let w' := snd (PreCommit.bumpPatchVersion w f) in
  fst (PreCommit.bumpPatchVersion w f)
  = Some (render (bumpedVersion current))
  /\ PreCommit.getCurrentVersion w' f
     = Js.Str (render (bumpedVersion current))
  /\ PreCommit.getStagedVersion w' f
     = Js.Str (render (bumpedVersion current)).
Proof.
  intros _ Hfile Hversion Hwrite Hadd w'. subst w'.
  rewrite (bumpPatchVersion_render w f current fields Hfile Hversion
             Hwrite Hadd).
  cbn [fst snd]. split; [reflexivity|]. split.
  - apply (getCurrentVersion_render _ f
             (Js.assign "version" (Js.Str (render (bumpedVersion current)))
                fields)).
    + cbn. unfold PreCommit.update. now destruct f.
    + apply lookup_assign_same.
  - unfold PreCommit.getStagedVersion.
    replace (PreCommit.gitShowIndex _ f)
      with (Some (PreCommit.Doc
                    (Js.Obj (Js.assign "version"
                               (Js.Str (render (bumpedVersion current)))
                               fields))))
      by (cbn; unfold PreCommit.update; now destruct f).
    cbn [Js.getProp]. now rewrite lookup_assign_same.
Qed.

Lemma bump_then_read_witness :
  let w' :=
    snd (PreCommit.bumpPatchVersion (worldAt "1.0.0" "1.0.0" "1.0.5")
           PreCommit.web) in
  fst (PreCommit.bumpPatchVersion (worldAt "1.0.0" "1.0.0" "1.0.5")
         PreCommit.web) = Some "1.0.6"
  /\ PreCommit.getCurrentVersion w' PreCommit.web = Js.Str "1.0.6"
  /\ PreCommit.getStagedVersion w' PreCommit.web = Js.Str "1.0.6".
Proof.
  refine (bump_then_read (worldAt "1.0.0" "1.0.0" "1.0.5") PreCommit.web
            (mkVersion 1 0 5)
            [("name", Js.Str "app"); ("version", Js.Str "1.0.5")]
            _ eq_refl eq_refl eq_refl eq_refl).
  safe_components.
Defined.



(** X9.  A folder whose metadata file cannot be read or parsed counts as
    0.0.0 in the tag version: with such a file for back and the version B
    for web, [updateEnvTagVersion] returns [0.0.B.minor.B.patch]. *)
Theorem tag_of_unreadable_back (w : PreCommit.World) (B : SemanticVersion)
    (fieldsB : list (string * Js.value)) :
  safe B ->
  (PreCommit.packageJson w PreCommit.back = None
   \/ PreCommit.packageJson w PreCommit.back = Some PreCommit.Blank
   \/ PreCommit.packageJson w PreCommit.back = Some PreCommit.Malformed) ->
  PreCommit.packageJson w PreCommit.web
  = Some (PreCommit.Doc (Js.Obj fieldsB)) ->
  Js.lookup "version" fieldsB = Js.Str (render B) ->
  PreCommit.envWritable w = true ->
  fst (PreCommit.updateEnvTagVersion w)
  = Some (tagText 0 0 (minor B) (patch B)).
Proof.
  intros _ Hback HfileB HB Hw.
  assert (Hzero : PreCommit.getCurrentVersion w PreCommit.back
                  = Js.Str (render (mkVersion 0 0 0))).
  { unfold PreCommit.getCurrentVersion.
    destruct Hback as [->|[->| ->]]; reflexivity. }
  unfold PreCommit.updateEnvTagVersion.
  rewrite Hzero, (getCurrentVersion_render w _ fieldsB B HfileB HB), Hw.
  cbn [fst]. now rewrite newTagVersion_render.
Qed.

Lemma tag_of_unreadable_back_witness :
  fst (PreCommit.updateEnvTagVersion (webOnlyWorld "1.0.9")) = Some "0.0.0.9".
Proof.
  refine (tag_of_unreadable_back (webOnlyWorld "1.0.9") (mkVersion 1 0 9)
            [("name", Js.Str "app"); ("version", Js.Str "1.0.9")]
            _ (or_introl eq_refl) eq_refl eq_refl eq_refl).
  safe_components.
Defined.

(** ** The change detector *)

Lemma isPath_cases (path : string) :
  isPath path = true ->
  lacks LF path = true
  /\ Js.trimStart path = path
  /\ Js.trimEnd path = path
  /\ Js.isEmpty path = false.
Proof.
  unfold isPath. intros H.
  apply andb_true_iff in H as [H Hend]. apply andb_true_iff in H as [Hlf Hc].
  apply String.eqb_eq in Hend.
  destruct path as [|c path]; [discriminate Hc|].
  apply negb_true_iff in Hc. repeat split; try assumption.
  cbn [Js.trimStart]. now rewrite Hc.
Qed.

Lemma joinLines_cons (l : string) (ls : list string) :
  ls <> [] -> joinLines (l :: ls) = l ++ String LF (joinLines ls).
Proof. destruct ls; [intros H; now elim H|reflexivity]. Qed.

Lemma joinLines_not_empty (l : string) (ls : list string) :
  Js.isEmpty l = false -> Js.isEmpty (joinLines (l :: ls)) = false.
Proof.
  intros H. destruct ls; [exact H|].
  rewrite joinLines_cons by discriminate.
  destruct l; [discriminate H|reflexivity].
Qed.

(** The output of a command that prints paths, each on its line, trimmed
    at its end. *)
Lemma trimEnd_logText (path : string) (paths : list string) :
  forallb isPath (path :: paths) = true ->
  Js.trimEnd (logText (path :: paths)) = joinLines (path :: paths).
Proof.
  revert path. induction paths as [|q qs IH]; intros path H.
  - cbn [forallb] in H. apply andb_true_iff in H as [Hp _].
    destruct (isPath_cases path Hp) as (_ & _ & Hend & _).
    cbn [logText joinLines]. rewrite trimEnd_append. cbn. exact Hend.
  - cbn [forallb] in H. apply andb_true_iff in H as [Hp Hq].
    destruct (isPath_cases path Hp) as (_ & _ & _ & Hne).
    assert (Hq' : isPath q = true)
      by (cbn [forallb] in Hq; now apply andb_true_iff in Hq as [Hq _]).
    destruct (isPath_cases q Hq') as (_ & _ & _ & Hqne).
    rewrite joinLines_cons by discriminate.
    change (logText (path :: q :: qs))
      with (path ++ String LF (logText (q :: qs))).
    rewrite trimEnd_append.
    assert (E : Js.trimEnd (String LF (logText (q :: qs)))
                = String LF (joinLines (q :: qs))).
    { cbn [Js.trimEnd]. rewrite (IH q Hq).
      now rewrite (joinLines_not_empty q qs Hqne), andb_false_r. }
    now rewrite E.
Qed.

Lemma lines_joinLines (path : string) (paths : list string) :
  forallb isPath (path :: paths) = true ->
  lines (joinLines (path :: paths)) = path :: paths.
Proof.
  revert path. induction paths as [|q qs IH]; intros path H;
    cbn [forallb] in H; apply andb_true_iff in H as [Hp Hq];
    destruct (isPath_cases path Hp) as (Hlf & _).
  - now apply split_whole.
  - rewrite joinLines_cons by discriminate. unfold lines.
    rewrite split_piece by exact Hlf. f_equal. now apply IH.
Qed.

Lemma filter_paths (paths : list string) :
  forallb isPath paths = true ->
  filter (fun file => negb (Js.isEmpty file)) paths = paths.
Proof.
  induction paths as [|q qs IH]; intros H; [reflexivity|].
  cbn [forallb] in H. apply andb_true_iff in H as [Hq Hqs].
  destruct (isPath_cases q Hq) as (_ & _ & _ & Hne).
  cbn [filter]. now rewrite Hne, (IH Hqs).
Qed.

Lemma filter_some {A : Type} (p : A -> bool) (l : list A) :
  (0 <? List.length (filter p l))%nat = existsb p l.
Proof.
  induction l as [|x l IH]; [reflexivity|].
  cbn [filter existsb]. destruct (p x); [reflexivity|exact IH].
Qed.

(** X10.  [hasFolderChanges] tells whether a staged path of the folder
    does not end with [package.json]: over the paths that
    [git diff --cached --name-only] prints, each on its line, it is true
    exactly when one of them does not end so; when the command fails it
    is false. *)
Theorem hasFolderChanges_paths (w : PreCommit.World)
    (f : PreCommit.folderName) :
  (PreCommit.gitDiffCached w f = None ->
   PreCommit.hasFolderChanges w f = false)
  /\ forall paths,
       forallb isPath paths = true ->
       PreCommit.gitDiffCached w f = Some (logText paths) ->
       PreCommit.hasFolderChanges w f
       = existsb (fun file => negb (Js.endsWith file "package.json")) paths.
Proof.
  unfold PreCommit.hasFolderChanges. split; [now intros ->|].
  intros [|path paths] Hpaths ->; [reflexivity|].
  assert (Htrim : Js.trim (logText (path :: paths))
                  = joinLines (path :: paths)).
  { unfold Js.trim.
    assert (Hp : isPath path = true)
      by (cbn [forallb] in Hpaths; now apply andb_true_iff in Hpaths as [H _]).
    destruct (isPath_cases path Hp) as (_ & Hstart & _ & Hne).
    replace (Js.trimStart (logText (path :: paths)))
      with (logText (path :: paths)).
    - now apply trimEnd_logText.
    - cbn [logText]. destruct path as [|c path]; [discriminate Hne|].
      cbn [Js.trimStart] in Hstart. cbn [append Js.trimStart].
      destruct (Js.isWhiteSpace c); [|reflexivity].
      exfalso. clear -Hstart.
      assert (Hlen : (String.length (Js.trimStart path)
                      <= String.length path)%nat).
      { clear. induction path as [|x path IH]; [apply Nat.le_refl|].
        cbn [Js.trimStart]. destruct (Js.isWhiteSpace x);
          [cbn [String.length]; lia|apply Nat.le_refl]. }
      rewrite Hstart in Hlen. cbn [String.length] in Hlen. lia. }
  rewrite Htrim.
  assert (Hp : isPath path = true)
    by (cbn [forallb] in Hpaths; now apply andb_true_iff in Hpaths as [H _]).
  destruct (isPath_cases path Hp) as (_ & _ & _ & Hne).
  rewrite (joinLines_not_empty path paths Hne).
  change (Js.split "010" (joinLines (path :: paths)))
    with (lines (joinLines (path :: paths))).
  rewrite (lines_joinLines path paths Hpaths), (filter_paths _ Hpaths).
  apply filter_some.
Qed.

Lemma hasFolderChanges_paths_witness :
  PreCommit.hasFolderChanges
    (worldOf (fun _ => None) (fun _ => None) (fun _ => None)
       (fun _ => Some (logText ["web/package.json"; "web/src/app.js"])) None)
    PreCommit.web
  = true.
Proof.
  exact (proj2 (hasFolderChanges_paths
                  (worldOf (fun _ => None) (fun _ => None) (fun _ => None)
                     (fun _ =>
                        Some (logText ["web/package.json"; "web/src/app.js"]))
                     None)
                  PreCommit.web)
           ["web/package.json"; "web/src/app.js"] eq_refl eq_refl).
Defined.

(** ** The history log *)

(** X11.  After [manageLog] a log file holds no more entries than the
    limit: the file is emptied when it held more, and is left as it was,
    or absent, otherwise. *)
Theorem manageLog_bound (file : option string) (maxEntries : nat) :
  let result := PreCommit.manageLog file maxEntries in
  (entryCount (PreCommit.contentOf (snd result)) <= maxEntries)%nat
  /\ (fst result = true ->
      snd result = Some EmptyString
      /\ (maxEntries < entryCount (PreCommit.contentOf file))%nat)
  /\ (fst result = false -> snd result = file).
Proof.
  cbv zeta. unfold PreCommit.manageLog.
  destruct file as [text|];
    [|cbn; split; [lia|split; [discriminate|reflexivity]]].
  change (Js.split "010" text) with (lines text). fold (entryCount text).
  destruct (maxEntries <? entryCount text)%nat eqn:E; cbn [fst snd].
  - apply Nat.ltb_lt in E.
    split; [cbn; lia|]. split; [now split|discriminate].
  - apply Nat.ltb_ge in E.
    split; [exact E|]. split; [discriminate|reflexivity].
Qed.

Lemma manageLog_bound_witness :
  snd (PreCommit.manageLog (Some (logText ["a"; "b"; "c"])) 2)
  = Some EmptyString
  /\ (2 < entryCount (logText ["a"; "b"; "c"]))%nat.
Proof.
  exact (proj1 (proj2 (manageLog_bound (Some (logText ["a"; "b"; "c"])) 2))
           eq_refl).
Defined.

Lemma logText_app (entries : list string) (entry : string) :
  logText (entries ++ [entry])
  = logText entries ++ entry ++ String LF EmptyString.
Proof.
  induction entries as [|e es IH]; [reflexivity|].
  change (logText ((e :: es) ++ [entry]))
    with (e ++ String LF (logText (es ++ [entry]))).
  change (logText (e :: es)) with (e ++ String LF (logText es)).
  rewrite IH, append_assoc. reflexivity.
Qed.

(** A text with a code unit that is not white space is not blank. *)
Lemma trim_not_empty (a b : string) (c : ascii) :
  Js.isWhiteSpace c = false ->
  Js.isEmpty (Js.trim (a ++ String c b)) = false.
Proof.
  intros Hc. unfold Js.trim. rewrite (trimStart_append a b c Hc).
  rewrite trimEnd_append.
  assert (E : Js.trimEnd (String c b) = String c (Js.trimEnd b)).
  { cbn [Js.trimEnd]. now rewrite Hc. }
  rewrite E. cbn [Js.isEmpty]. now destruct (Js.trimStart a).
Qed.

(** X12.  [log] keeps the history log a sequence of entries of one line:
    over a log that holds such entries, or an absent log, a message and a
    time stamp without line feed add one entry at the end, and
    [manageLog] counts one more. *)
Theorem log_appends_entry (w : PreCommit.World) (entries : list string)
    (message : string) :
  forallb isEntry entries = true ->
  (PreCommit.historyLog w = Some (logText entries)
   \/ (PreCommit.historyLog w = None /\ entries = [])) ->
  lacks LF message = true ->
  lacks LF (PreCommit.clock w (PreCommit.ticks w)) = true ->
  let w' := PreCommit.log w message in
  PreCommit.historyLog w' = Some (logText (entries ++ [entryOf w message]))
  /\ forallb isEntry (entries ++ [entryOf w message]) = true
  /\ entryCount (PreCommit.contentOf (PreCommit.historyLog w'))
     = S (List.length entries).
Proof.
  intros Hentries Hlog Hmessage Hclock w'. subst w'.
  assert (Hnew : isEntry (entryOf w message) = true).
  { unfold isEntry, entryOf. apply andb_true_iff. split.
    - rewrite !lacks_append, Hclock, Hmessage. reflexivity.
    - apply negb_true_iff.
      replace (PreCommit.clock w (PreCommit.ticks w) ++ " - " ++ message)
        with ((PreCommit.clock w (PreCommit.ticks w) ++ " ")
              ++ String "-" (" " ++ message))
        by (now rewrite append_assoc).
      now apply trim_not_empty. }
  assert (Hall : forallb isEntry (entries ++ [entryOf w message]) = true).
  { rewrite forallb_app, Hentries. cbn [forallb]. now rewrite Hnew. }
  assert (Hfile : PreCommit.historyLog (PreCommit.log w message)
                  = Some (logText (entries ++ [entryOf w message]))).
  { rewrite logText_app. unfold entryOf. cbn [PreCommit.log PreCommit.historyLog].
    destruct Hlog as [->|[-> ->]]; cbn [PreCommit.contentOf logText].
    - now rewrite !append_assoc.
    - now rewrite !append_assoc. }
  split; [exact Hfile|]. split; [exact Hall|].
  rewrite Hfile. cbn [PreCommit.contentOf]. unfold entryCount.
  rewrite (lines_logText _ Hall), (filter_entries _ Hall).
  rewrite length_app. cbn [List.length]. lia.
Qed.

Lemma log_appends_entry_witness :
  entryCount
    (PreCommit.contentOf
       (PreCommit.historyLog
          (PreCommit.log (worldWithLog ["2026-01-01 00:00:00 - a"]) "b")))
  = 2%nat.
Proof.
  exact (proj2 (proj2 (log_appends_entry
                         (worldWithLog ["2026-01-01 00:00:00 - a"])
                         ["2026-01-01 00:00:00 - a"] "b"
                         eq_refl (or_introl eq_refl) eq_refl eq_refl))).
Defined.

(** ** More of the tag publisher of [build/deploy.js] *)

(** A run of the loop that publishes a tag found it free, created it and
    pushed it, and ends in the state the push left. *)
Lemma attempts_sound {G : Type} (git : Git.Ops G) (tagName : string)
    (remaining : nat) (counter : N) (g gf : G) (tag : string)
    (tried : list string) :
  Deploy.attempts git remaining counter tagName g = (Some tag, tried, gf) ->
  exists g' g1,
    Deploy.tagExists git g' tag = false
    /\ Git.tagCreate git g' tag = (true, g1)
    /\ Git.pushTag git g1 tag = (true, gf).
Proof.
  revert counter g tried.
  induction remaining as [|remaining IH]; intros counter g tried;
    [discriminate|].
  assert (Hretry : forall g',
             (let '(published, tried', g'') :=
                Deploy.attempts git remaining (counter + 1) tagName g' in
              (published, Deploy.currentTag tagName counter :: tried', g''))
             = (Some tag, tried, gf) ->
             exists g'' g1,
               Deploy.tagExists git g'' tag = false
               /\ Git.tagCreate git g'' tag = (true, g1)
               /\ Git.pushTag git g1 tag = (true, gf)).
  { intros g'.
    destruct (Deploy.attempts git remaining (counter + 1) tagName g')
      as [[published tried'] g''] eqn:E.
    intros [= -> _ ->]. exact (IH _ _ _ E). }
  rewrite attempts_step. cbv zeta.
  destruct (Deploy.tagExists git g _) eqn:Hfree; [apply Hretry|].
  destruct (Git.tagCreate git g _) as [[|] g1] eqn:Hcreate; [|apply Hretry].
  destruct (Git.pushTag git g1 _) as [[|] g2] eqn:Hpush; [|apply Hretry].
  intros [= <- _ <-]. now exists g, g1.
Qed.

Lemma deploy_loop_sound {G : Type} (git : Git.Ops G) (tagName : string)
    (remaining : nat) (g : G) (tag : string) :
  let loop := Deploy.attempts git remaining 0 tagName g in
  let run :=
    (match outcomeOf loop with
     | Some tag => Deploy.Returned tag
     | None => Deploy.Exit 1
     end, triedOf loop, stateOf loop) in
  outcomeOf run = Deploy.Returned tag ->
  (exists n, (n < remaining)%nat
             /\ tag = Deploy.currentTag tagName (N.of_nat n))
  /\ exists g' g1,
       Deploy.tagExists git g' tag = false
       /\ Git.tagCreate git g' tag = (true, g1)
       /\ Git.pushTag git g1 tag = (true, stateOf run).
Proof.
  intros loop run. subst run. cbn [triedOf outcomeOf stateOf fst snd].
  fold (outcomeOf loop). fold (stateOf loop).
  pose proof (attempts_wellShaped git tagName remaining 0 g)
    as (_ & Hlen & Hend). fold loop in Hlen, Hend.
  pose proof (attempts_sound git tagName remaining 0 g (stateOf loop) tag
                (triedOf loop)) as Hsound. fold loop in Hsound.
  destruct loop as [[[published|] tried] gf];
    cbn [triedOf outcomeOf stateOf fst snd] in *; [|discriminate].
  intros [= ->]. split; [|now apply Hsound].
  destruct Hend as (n & Hn & ->). exists n. split; [lia|reflexivity].
Qed.

(** X13.  When [createAndPushTag] of [build/deploy.js] returns a tag, the
    tag is one of the 100 candidate names of the tag version of the
    environment file, it did not exist when it was tried, it was created
    and pushed, and the state is the one the push left. *)
Theorem deploy_success_sound {G : Type} (git : Git.Ops G)
    (env : option string) (g : G) (tag : string) :
  outcomeOf (Deploy.createAndPushTag git env g) = Deploy.Returned tag ->
  exists version,
    getTagVersion env = Some version
    /\ (exists n, (n < Deploy.maxAttempts)%nat
                  /\ tag = Deploy.currentTag ("v" ++ version) (N.of_nat n))
    /\ exists g' g1,
         Deploy.tagExists git g' tag = false
         /\ Git.tagCreate git g' tag = (true, g1)
         /\ Git.pushTag git g1 tag
            = (true, stateOf (Deploy.createAndPushTag git env g)).
Proof.
  destruct (getTagVersion env) as [version|] eqn:Henv.
  - rewrite (deploy_run git env version g Henv). intros H.
    exists version. split; [reflexivity|].
    exact (deploy_loop_sound git ("v" ++ version) Deploy.maxAttempts g tag H).
  - unfold Deploy.createAndPushTag. rewrite Henv. discriminate.
Qed.

Lemma deploy_success_sound_witness :
  exists version,
    getTagVersion envOfTag = Some version
    /\ (exists n, (n < Deploy.maxAttempts)%nat
                  /\ "v1.0.0.0-1"
                     = Deploy.currentTag ("v" ++ version) (N.of_nat n))
    /\ exists g' g1,
         Deploy.tagExists Git.memory g' "v1.0.0.0-1" = false
         /\ Git.tagCreate Git.memory g' "v1.0.0.0-1" = (true, g1)
         /\ Git.pushTag Git.memory g1 "v1.0.0.0-1"
            = (true,
               stateOf (Deploy.createAndPushTag Git.memory envOfTag
                          storeWithTag)).
Proof.
  exact (deploy_success_sound Git.memory envOfTag storeWithTag "v1.0.0.0-1"
           eq_refl).
Defined.

(** When every candidate exists the loop tries them all and changes
    nothing. *)
Lemma attempts_all_exist {G : Type} (git : Git.Ops G) (tagName : string)
    (remaining : nat) (counter : N) (g : G) :
  (forall n, (n < remaining)%nat ->
     Deploy.tagExists git g (Deploy.currentTag tagName (counter + N.of_nat n))
     = true) ->
  Deploy.attempts git remaining counter tagName g
  = (None, map (Deploy.currentTag tagName) (counters counter remaining), g).
Proof.
  revert counter. induction remaining as [|remaining IH]; intros counter H;
    [reflexivity|].
  rewrite attempts_step. cbv zeta.
  pose proof (H 0%nat ltac:(lia)) as H0. rewrite N.add_0_r in H0.
  rewrite H0, IH; [reflexivity|].
  intros n Hn. specialize (H (S n) ltac:(lia)).
  now replace (counter + 1 + N.of_nat n) with (counter + N.of_nat (S n))
    by lia.
Qed.

(** X14.  When the 100 candidate names of the tag version all exist,
    [createAndPushTag] of [build/deploy.js] tries each of them once, in
    order, creates and pushes nothing, and ends with the exit code 1. *)
Theorem deploy_all_candidates_exist {G : Type} (git : Git.Ops G)
    (env : option string) (version : string) (g : G) :
  getTagVersion env = Some version ->
  (forall n, (n < Deploy.maxAttempts)%nat ->
     Deploy.tagExists git g
       (Deploy.currentTag ("v" ++ version) (N.of_nat n)) = true) ->
  Deploy.createAndPushTag git env g
  = (Deploy.Exit 1,
     map (Deploy.currentTag ("v" ++ version)) (counters 0 Deploy.maxAttempts),
     g).
Proof.
  intros Henv Hall.
  rewrite (deploy_run git env version g Henv).
  now rewrite (attempts_all_exist git ("v" ++ version) Deploy.maxAttempts 0 g
                 Hall).
Qed.

Lemma deploy_all_candidates_exist_witness :
  Deploy.createAndPushTag Git.memory envOfTag
    (storeWithCandidates "v1.0.0.0" 100)
  = (Deploy.Exit 1,
     map (Deploy.currentTag "v1.0.0.0") (counters 0 Deploy.maxAttempts),
     storeWithCandidates "v1.0.0.0" 100).
Proof.
  apply (deploy_all_candidates_exist Git.memory envOfTag "1.0.0.0"
           (storeWithCandidates "v1.0.0.0" 100) eq_refl).
  intros n Hn.
  apply (proj1 (forallb_forall
                  (fun n => Deploy.tagExists Git.memory
                              (storeWithCandidates "v1.0.0.0" 100)
                              (Deploy.currentTag "v1.0.0.0" (N.of_nat n)))
                  (seq 0 100))).
  - vm_compute. reflexivity.
  - apply in_seq. unfold Deploy.maxAttempts in Hn. lia.
Defined.

(** ** More of the post-commit hook *)

(** X15.  When [createAndPushTag] of the post-commit hook publishes a
    tag, the tag is [v] followed by the tag version of the environment
    file, [git tag -l] did not list it, it was created and pushed, and
    the remote lists it; the state is the one the push left. *)
Theorem hook_success_sound {G : Type} (git : Git.Ops G)
    (env : option string) (g : G) (tag : string) :
  fst (PostCommit.createAndPushTag git env g) = Some tag ->
  exists version listed remote g1,
    getTagVersion env = Some version
    /\ tag = "v" ++ version
    /\ Git.tagList git g tag = Some listed
    /\ Js.trim listed <> tag
    /\ Git.tagCreate git g tag = (true, g1)
    /\ Git.pushTag git g1 tag
       = (true, snd (PostCommit.createAndPushTag git env g))
    /\ Git.lsRemote git (snd (PostCommit.createAndPushTag git env g))
       = Some remote
    /\ Js.includes remote ("refs/tags/" ++ tag) = true.
Proof.
  unfold PostCommit.createAndPushTag.
  destruct (getTagVersion env) as [version|]; [|discriminate].
  destruct (Git.tagList git g ("v" ++ version)) as [listed|] eqn:Hlist;
    [|discriminate].
  destruct (String.eqb (Js.trim listed) ("v" ++ version)) eqn:Hlisted;
    [discriminate|].
  destruct (Git.tagCreate git g ("v" ++ version)) as [[|] g1] eqn:Hcreate;
    [|discriminate].
  destruct (Git.pushTag git g1 ("v" ++ version)) as [[|] g2] eqn:Hpush;
    [|discriminate].
  destruct (Git.lsRemote git g2) as [remote|] eqn:Hremote; [|discriminate].
  destruct (Js.includes remote ("refs/tags/" ++ "v" ++ version)) eqn:Hverify;
    [|discriminate].
  cbn [fst snd]. intros [= <-].
  exists version, listed, remote, g1.
  apply String.eqb_neq in Hlisted. now repeat split.
Qed.

Lemma hook_success_sound_witness :
  exists version listed remote g1,
    getTagVersion envOfFreeTag = Some version
    /\ "v1.0.0.1" = "v" ++ version
    /\ Git.tagList Git.memory storeWithTag "v1.0.0.1" = Some listed
    /\ Js.trim listed <> "v1.0.0.1"
    /\ Git.tagCreate Git.memory storeWithTag "v1.0.0.1" = (true, g1)
    /\ Git.pushTag Git.memory g1 "v1.0.0.1"
       = (true,
          snd (PostCommit.createAndPushTag Git.memory envOfFreeTag
                 storeWithTag))
    /\ Git.lsRemote Git.memory
         (snd (PostCommit.createAndPushTag Git.memory envOfFreeTag
                 storeWithTag))
       = Some remote
    /\ Js.includes remote ("refs/tags/" ++ "v1.0.0.1") = true.
Proof.
  exact (hook_success_sound Git.memory envOfFreeTag storeWithTag "v1.0.0.1"
           eq_refl).
Defined.

(** X16.  The post-commit hook publishes a tag only for a commit whose
    message holds [-d], on the branch main or master: then the tag is the
    one its [createAndPushTag] publishes, and the commit is pushed after
    it.  For a message without [-d] the hook does nothing. *)
Theorem hook_publishes_on_deploy_commits {G : Type} (git : Git.Ops G)
    (hook : Git.HookOps G) (env : option string) (g : G) :
  (forall tag,
     fst (PostCommit.main git hook env g) = Some tag ->
     exists message branch,
       Git.logMessage hook g = Some message
       /\ Js.includes (Js.trim message) "-d" = true
       /\ Git.symbolicRef hook g = Some branch
       /\ (Js.trim branch = "main" \/ Js.trim branch = "master")
       /\ fst (PostCommit.createAndPushTag git env g) = Some tag
       /\ snd (PostCommit.main git hook env g)
          = snd (Git.pushHead hook
                   (snd (PostCommit.createAndPushTag git env g))))
  /\ (forall message,
        Git.logMessage hook g = Some message ->
        Js.includes (Js.trim message) "-d" = false ->
        PostCommit.main git hook env g = (None, g)).
Proof.
  unfold PostCommit.main. split.
  - intros tag.
    destruct (Git.logMessage hook g) as [message|]; [|discriminate].
    destruct (Js.includes (Js.trim message) "-d") eqn:Hflag; [|discriminate].
    destruct (Git.symbolicRef hook g) as [branch|]; [|discriminate].
    destruct (String.eqb (Js.trim branch) "main") eqn:Hmain;
      destruct (String.eqb (Js.trim branch) "master") eqn:Hmaster;
      cbn [orb negb]; try discriminate;
      destruct (PostCommit.createAndPushTag git env g) as [[published|] g1];
      try discriminate; cbn [fst snd]; intros [= ->];
      exists message, branch; repeat split; try reflexivity;
      first [exact Hflag
            |left; now apply String.eqb_eq
            |right; now apply String.eqb_eq].
  - intros message -> Hflag. now rewrite Hflag.
Qed.

Lemma hook_publishes_on_deploy_commits_witness :
  exists message branch,
    Git.logMessage (Git.memoryHook "release -d" "main") storeWithTag
    = Some message
    /\ Js.includes (Js.trim message) "-d" = true
    /\ Git.symbolicRef (Git.memoryHook "release -d" "main") storeWithTag
       = Some branch
    /\ (Js.trim branch = "main" \/ Js.trim branch = "master")
    /\ fst (PostCommit.createAndPushTag Git.memory envOfFreeTag storeWithTag)
       = Some "v1.0.0.1"
    /\ snd (PostCommit.main Git.memory (Git.memoryHook "release -d" "main")
              envOfFreeTag storeWithTag)
       = snd (Git.pushHead (Git.memoryHook "release -d" "main")
                (snd (PostCommit.createAndPushTag Git.memory envOfFreeTag
                        storeWithTag))).
Proof.
  exact (proj1 (hook_publishes_on_deploy_commits Git.memory
                  (Git.memoryHook "release -d" "main") envOfFreeTag
                  storeWithTag)
           "v1.0.0.1" eq_refl).
Defined.

(** ** More of the version readers *)

Lemma lookup_missing (key : string) (fields : list (string * Js.value)) :
  Js.hasKey key fields = false -> Js.lookup key fields = Js.Undefined.
Proof.
  induction fields as [|[k v] fields IH]; [reflexivity|].
  cbn [Js.hasKey Js.lookup]. intros H.
  apply orb_false_iff in H as [Hk Hrest]. rewrite Hk. now apply IH.
Qed.

(** X17.  [getStagedVersion] gives no version, [null] or [undefined],
    when the metadata file is not in the index, is empty or is not JSON,
    when the document is [null], and when the object has no [version]
    field. *)
Theorem getStagedVersion_absent (w : PreCommit.World)
    (f : PreCommit.folderName) :
  (PreCommit.gitShowIndex w f = None
   \/ PreCommit.gitShowIndex w f = Some PreCommit.Blank
   \/ PreCommit.gitShowIndex w f = Some PreCommit.Malformed
   \/ PreCommit.gitShowIndex w f = Some (PreCommit.Doc Js.Null)
   \/ exists fields,
        PreCommit.gitShowIndex w f = Some (PreCommit.Doc (Js.Obj fields))
        /\ Js.hasKey "version" fields = false) ->
  Js.truthy (PreCommit.getStagedVersion w f) = false.
Proof.
  unfold PreCommit.getStagedVersion.
  intros [->|[->|[->|[->|(fields & -> & Hkey)]]]]; try reflexivity.
  cbn [Js.getProp]. now rewrite (lookup_missing _ _ Hkey).
Qed.

Lemma getStagedVersion_absent_witness :
  Js.truthy (PreCommit.getStagedVersion (untrackedWorld "1.0.0") PreCommit.web)
  = false.
Proof.
  apply getStagedVersion_absent. left. reflexivity.
Defined.

(** ** The form of a version *)

Lemma digitsStar_split (s : string) :
  exists d,
    every Js.isDigit d = true
    /\ s = d ++ Js.digitsStar s
    /\ Js.digitsStar (Js.digitsStar s) = Js.digitsStar s.
Proof.
  induction s as [|c s (d & Hd & Hs & Hrest)].
  - now exists EmptyString.
  - cbn [Js.digitsStar]. destruct (Js.isDigit c) eqn:Hc.
    + exists (String c d). simpl. rewrite Hc, Hd. now rewrite <- Hs.
    + exists EmptyString. repeat split. cbn [Js.digitsStar]. now rewrite Hc.
Qed.

Lemma digitsPlus_inv (s r : string) :
  Js.digitsPlus s = Some r ->
  exists a, isNumberText a = true /\ s = a ++ r /\ Js.digitsStar r = r.
Proof.
  destruct s as [|c s]; [discriminate|]. cbn [Js.digitsPlus].
  destruct (Js.isDigit c) eqn:Hc; [|discriminate]. intros [= <-].
  destruct (digitsStar_split s) as (d & Hd & Hs & Hrest).
  exists (String c d). unfold isNumberText. simpl.
  rewrite Hc, Hd. now rewrite <- Hs.
Qed.

Lemma digitsPlus_number (a rest : string) :
  isNumberText a = true ->
  Js.digitsStar rest = rest ->
  Js.digitsPlus (a ++ rest) = Some rest.
Proof.
  unfold isNumberText. intros Ha Hrest.
  apply andb_true_iff in Ha as [Hne Hd].
  destruct a as [|c a]; [discriminate Hne|].
  simpl in Hd. apply andb_true_iff in Hd as [Hc Hd].
  simpl. rewrite Hc. f_equal. now apply digitsStar_run.
Qed.

Lemma dot_inv (s r : string) : Js.dot s = Some r -> s = String "." r.
Proof.
  destruct s as [|c s]; [discriminate|]. cbn [Js.dot].
  destruct c as [[] [] [] [] [] [] [] []]; try discriminate.
  now intros [= <-].
Qed.

(** X18.  The form that [getCurrentVersion] checks,
    [/^\d+\.\d+\.\d+$/], is that of three runs of decimal digits, none
    empty, with a dot between two of them, and nothing else. *)
Theorem testVersion_spec (s : string) :
  Js.testVersion s = true
  <-> exists a b c,
        isNumberText a = true /\ isNumberText b = true
        /\ isNumberText c = true /\ s = a ++ "." ++ b ++ "." ++ c.
Proof.
  unfold Js.testVersion. split.
  - destruct (Js.digitsPlus s) as [r1|] eqn:H1; [|discriminate].
    cbn [Js.andThen].
    destruct (Js.dot r1) as [r2|] eqn:H2; [|discriminate]. cbn [Js.andThen].
    destruct (Js.digitsPlus r2) as [r3|] eqn:H3; [|discriminate].
    cbn [Js.andThen].
    destruct (Js.dot r3) as [r4|] eqn:H4; [|discriminate]. cbn [Js.andThen].
    destruct (Js.digitsPlus r4) as [[|]|] eqn:H5; try discriminate.
    intros _.
    destruct (digitsPlus_inv _ _ H1) as (a & Ha & -> & _).
    destruct (digitsPlus_inv _ _ H3) as (b & Hb & -> & _).
    destruct (digitsPlus_inv _ _ H5) as (c & Hc & -> & _).
    apply dot_inv in H2. apply dot_inv in H4. subst r1 r3.
    exists a, b, c. rewrite append_empty_r. now repeat split.
  - intros (a & b & c & Ha & Hb & Hc & ->).
    change (a ++ "." ++ b ++ "." ++ c)
      with (a ++ String "." (b ++ String "." c)).
    rewrite (digitsPlus_number a _ Ha) by reflexivity.
    cbn [Js.andThen Js.dot].
    rewrite (digitsPlus_number b _ Hb) by reflexivity.
    cbn [Js.andThen Js.dot].
    rewrite <- (append_empty_r c).
    now rewrite (digitsPlus_number c _ Hc) by reflexivity.
Qed.

(** X19.  A version is read back from its text: the text of a version
    has the form that [getCurrentVersion] checks, [split('.')] and
    [Number] give its three components back, and two versions with the
    same text are the same. *)
Theorem version_round_trip (v : SemanticVersion) :
  safe v ->
  Js.testVersion (render v) = true
  /\ Js.components (render v)
     = [Js.Int (major v); Js.Int (minor v); Js.Int (patch v)]
  /\ forall u, render u = render v -> u = v.
Proof.
  intros _. split; [apply testVersion_render|].
  split; [apply components_render|]. intros u. apply render_inj.
Qed.

Lemma version_round_trip_witness :
  Js.testVersion "2.5.1" = true
  /\ Js.components "2.5.1" = [Js.Int 2; Js.Int 5; Js.Int 1]
  /\ forall u, render u = "2.5.1" -> u = mkVersion 2 5 1.
Proof.
  apply (version_round_trip (mkVersion 2 5 1)). safe_components.
Defined.

(** ** The whole hook *)

Lemma processFolder_bump (w : PreCommit.World) (f : PreCommit.folderName)
    (v : SemanticVersion) (fields : list (string * Js.value)) :
  bumpReady w f v fields ->
  PreCommit.processFolder w f
  = (PreCommit.AutoBump (Some (render (bumpedVersion v))),
     PreCommit.log
       (PreCommit.stage
          (PreCommit.writePackageJson w f (bumpedPackage v fields)) f)
       (PreCommit.nameOf f ++ " version auto-bumped to "
        ++ render (bumpedVersion v) ++ " (" ++ PreCommit.nameOf f
        ++ " files changed)")).
Proof.
  intros (Hh & Hs & Hchanged & Hfile & Hversion & Hwrite & Hadd).
  unfold PreCommit.processFolder. rewrite Hh, Hchanged.
  destruct Hs as [Hs|Hs]; rewrite Hs.
  - rewrite !truthy_render. cbn [andb].
    rewrite handleMinorVersionBump_render, N.ltb_irrefl, andb_false_r.
    cbn [Js.strictNe]. rewrite String.eqb_refl. cbn [negb].
    now rewrite (bumpPatchVersion_render w f v fields Hfile Hversion
                   Hwrite Hadd).
  - cbn [andb].
    now rewrite (bumpPatchVersion_render w f v fields Hfile Hversion
                   Hwrite Hadd).
Qed.

(** X20.  The whole pre-commit hook, when both folders are ready for an
    automatic bump (web at the version B, back at the version A) and the
    environment file can be written: both metadata files are rewritten
    with the patch plus one and staged, and the environment file gets
    the tag composed of the bumped versions,
    [A.minor.(A.patch+1).B.minor.(B.patch+1)]. *)
Theorem main_bumps_and_tags (w : PreCommit.World) (A B : SemanticVersion)
    (fieldsA fieldsB : list (string * Js.value)) :
  safe A -> safe B ->
  bumpReady w PreCommit.back A fieldsA ->
  bumpReady w PreCommit.web B fieldsB ->
  PreCommit.envWritable w = true ->
  let w' := PreCommit.main w in
  let tag := tagText (minor A) (patch A + 1) (minor B) (patch B + 1) in
  PreCommit.packageJson w' PreCommit.back = Some (bumpedPackage A fieldsA)
  /\ PreCommit.gitShowIndex w' PreCommit.back
     = Some (bumpedPackage A fieldsA)
  /\ PreCommit.packageJson w' PreCommit.web = Some (bumpedPackage B fieldsB)
  /\ PreCommit.gitShowIndex w' PreCommit.web = Some (bumpedPackage B fieldsB)
  /\ PreCommit.envFile w'
     = Some (PreCommit.updateEnvContent
               (PreCommit.contentOf (PreCommit.envFile w)) tag).
Proof.
  intros _ _ HA HB Henv w' tag. subst w' tag.
  unfold PreCommit.main. cbn [fold_left PreCommit.folderNames].
  rewrite (processFolder_bump (PreCommit.initLogs w) PreCommit.web B fieldsB)
    by exact HB.
  cbn [snd].
  match goal with
  | |- context [PreCommit.processFolder ?w1 PreCommit.back] =>
      rewrite (processFolder_bump w1 PreCommit.back A fieldsA) by exact HA
  end.
  cbn [snd].
  match goal with
  | |- context [PreCommit.updateEnvTagVersion ?w2] =>
      assert (Hback : PreCommit.getCurrentVersion w2 PreCommit.back
                      = Js.Str (render (bumpedVersion A)))
        by (apply (getCurrentVersion_render w2 PreCommit.back
                     (Js.assign "version"
                        (Js.Str (render (bumpedVersion A))) fieldsA));
            [reflexivity|apply lookup_assign_same]);
      assert (Hweb : PreCommit.getCurrentVersion w2 PreCommit.web
                     = Js.Str (render (bumpedVersion B)))
        by (apply (getCurrentVersion_render w2 PreCommit.web
                     (Js.assign "version"
                        (Js.Str (render (bumpedVersion B))) fieldsB));
            [reflexivity|apply lookup_assign_same])
  end.
  unfold PreCommit.updateEnvTagVersion. rewrite Hback, Hweb.
  rewrite newTagVersion_render.
  cbn [PreCommit.envWritable PreCommit.log PreCommit.stage
       PreCommit.writePackageJson PreCommit.initLogs
       PreCommit.writeHistoryLog].
  rewrite Henv. repeat split.
Qed.

Lemma main_bumps_and_tags_witness :
  PreCommit.envFile (PreCommit.main (worldAt "1.2.3" "1.2.3" "1.2.3"))
  = Some "TAG_VERSION=2.4.2.4".
Proof.
  refine (proj2 (proj2 (proj2 (proj2
            (main_bumps_and_tags (worldAt "1.2.3" "1.2.3" "1.2.3")
               (mkVersion 1 2 3) (mkVersion 1 2 3)
               [("name", Js.Str "app"); ("version", Js.Str "1.2.3")]
               [("name", Js.Str "app"); ("version", Js.Str "1.2.3")]
               _ _ _ _ eq_refl))))).
  - safe_components.
  - safe_components.
  - repeat split. left. reflexivity.
  - repeat split. left. reflexivity.
Defined.
